(** * Bluebird: the list adapters, the list view and the activity stack

    A shallow embedding of [bluebird/adapter.py], [bluebird/views.py] and of
    the activity management of [bluebird/app.py], followed by the properties
    established about them.

    Conventions of the embedding.
    - A Python [int] is a [Z]; a Python [str] is a [string] whose characters
      are the code points below 256.
    - A call that may raise returns a [result]; a method that mutates its
      object returns the new object next to its value.
    - A [dict] is a [gmap], a [list] is a [list]. *)

From Stdlib Require Import ZArith Ascii String.
From stdpp Require Import base option list list_numbers sorting gmap strings pretty.

Local Open Scope string_scope.
Local Open Scope list_scope.
Local Open Scope Z_scope.

(** ** Python primitives used by the sources *)

Module Py.

(** The exception classes that the embedded code raises or catches. *)
Inductive exn : Set :=
| IndexError
| KeyError
| ValueError
| TypeError
| OtherError (tag : nat).

#[global] Instance exn_eq_dec : EqDecision exn.
Proof. solve_decision. Defined.

Inductive result (A : Type) : Type :=
| Ok (a : A)
| Raise (e : exn).
Arguments Ok {A} a.
Arguments Raise {A} e.

Definition bind {A B} (r : result A) (k : A -> result B) : result B :=
  match r with
  | Ok a => k a
  | Raise e => Raise e
  end.

Definition is_ok {A} (r : result A) : bool :=
  match r with Ok _ => true | Raise _ => false end.

(** [for x in xs: ys.append(f x)] where [f] may raise. *)
Fixpoint mapM {A B} (f : A -> result B) (xs : list A) : result (list B) :=
  match xs with
  | [] => Ok []
  | x :: xs' =>
      bind (f x) (fun y => bind (mapM f xs') (fun ys => Ok (y :: ys)))
  end.

(** [enumerate(xs)], counting from [n]. *)
Fixpoint enumerate_from {A} (n : nat) (xs : list A) : list (nat * A) :=
  match xs with
  | [] => []
  | x :: xs' => (n, x) :: enumerate_from (S n) xs'
  end.

Definition enumerate {A} (xs : list A) : list (nat * A) := enumerate_from 0 xs.

(** [xs[k]] on a list: a negative [k] counts from the end. *)
Definition list_getitem {A} (xs : list A) (k : Z) : result A :=
  let n := Z.of_nat (length xs) in
  let i := if decide (k < 0) then k + n else k in
  if decide (0 <= i < n) then
    match xs !! Z.to_nat i with
    | Some x => Ok x
    | None => Raise IndexError
    end
  else Raise IndexError.

(** [range(a, b)] and [range(a, b, -1)]. *)
Definition range (a b : Z) : list Z := seqZ a (b - a).
Definition range_down (a b : Z) : list Z := reverse (seqZ (b + 1) (a - b)).

(** *** [str] *)

Definition code (c : ascii) : N := N_of_ascii c.

(** [str.isspace] on one character. *)
Definition isspace (c : ascii) : bool :=
  let n := code c in
  ((9 <=? n) && (n <=? 13) || (28 <=? n) && (n <=? 32)
   || (n =? 133) || (n =? 160))%N.

Definition isdigit (c : ascii) : bool :=
  let n := code c in ((48 <=? n) && (n <=? 57))%N.

(** [str.lower] on one character. *)
Definition lower_char (c : ascii) : ascii :=
  let n := code c in
  if ((65 <=? n) && (n <=? 90)
      || (192 <=? n) && (n <=? 222) && negb (n =? 215))%N
  then ascii_of_N (n + 32) else c.

Fixpoint lower (s : string) : string :=
  match s with
  | EmptyString => EmptyString
  | String c s' => String (lower_char c) (lower s')
  end.

Definition rev_string (cs : list ascii) : string :=
  string_of_list_ascii (rev cs).

(** [s.split()]: the maximal runs of non-blank characters. [cur] holds the
    run being read, last character first. *)
Fixpoint split_aux (s : string) (cur : list ascii) : list string :=
  match s with
  | EmptyString =>
      match cur with [] => [] | _ => [rev_string cur] end
  | String c s' =>
      if isspace c then
        match cur with
        | [] => split_aux s' []
        | _ => rev_string cur :: split_aux s' []
        end
      else split_aux s' (c :: cur)
  end.

Definition split (s : string) : list string := split_aux s [].

Fixpoint lstrip (s : string) : string :=
  match s with
  | EmptyString => EmptyString
  | String c s' => if isspace c then lstrip s' else s
  end.

Definition rstrip (s : string) : string :=
  rev_string (list_ascii_of_string
                (lstrip (rev_string (list_ascii_of_string s)))).

Definition strip (s : string) : string := rstrip (lstrip s).

Fixpoint spaces (n : nat) : string :=
  match n with
  | O => EmptyString
  | S n' => String " " (spaces n')
  end.

Definition rjust (w : nat) (s : string) : string :=
  (spaces (w - String.length s) ++ s)%string.

Definition ljust (w : nat) (s : string) : string :=
  (s ++ spaces (w - String.length s))%string.

(** [sep.join(xs)] *)
Fixpoint join (sep : string) (xs : list string) : string :=
  match xs with
  | [] => EmptyString
  | [x] => x
  | x :: xs' => (x ++ sep ++ join sep xs')%string
  end.

(** [s[a:b]] and [s[a:]] for [0 <= a <= b]. *)
Definition slice (a b : nat) (s : string) : string :=
  String.substring a (b - a) s.

Definition slice_from (a : nat) (s : string) : string :=
  String.substring a (String.length s - a) s.

(** [s.find(p, start)]: [None] stands for [-1]. *)
Definition find (p s : string) (start : nat) : option nat :=
  String.index start p s.

(** [p in s] *)
Definition contains (p s : string) : bool :=
  match find p s 0 with Some _ => true | None => false end.

Definition startswith (p s : string) : bool := String.prefix p s.

(** [str(n)] for a natural number. *)
Definition str_of_nat (n : nat) : string := pretty n.

(** [s.splitlines()]: line boundaries are LF, CR, CR LF, VT, FF, FS, GS,
    RS and NEL. *)
Definition is_linebreak (c : ascii) : bool :=
  let n := code c in
  ((10 <=? n) && (n <=? 13) || (28 <=? n) && (n <=? 30) || (n =? 133))%N.

Fixpoint splitlines_aux (s : string) (cur : list ascii) : list string :=
  match s with
  | EmptyString =>
      match cur with [] => [] | _ => [rev_string cur] end
  | String c s' =>
      if is_linebreak c then
        match s' with
        | String d s'' =>
            if ((code c =? 13) && (code d =? 10))%N
            then rev_string cur :: splitlines_aux s'' []
            else rev_string cur :: splitlines_aux s' []
        | EmptyString => [rev_string cur]
        end
      else splitlines_aux s' (c :: cur)
  end.

Definition splitlines (s : string) : list string := splitlines_aux s [].

End Py.

Export Py.

(** ** [datetime]: the part of the standard library that the date filter uses *)

Module Datetime.

(** A [datetime.datetime]; [tod] is the time of day in microseconds. *)
Record datetime : Set := mkDatetime { year : Z; month : Z; day : Z; tod : Z }.

(** Comparison of two datetimes is lexicographic; [key] is monotone for it
    on valid dates. *)
Definition key (d : datetime) : Z :=
  ((year d * 16 + month d) * 32 + day d) * 86400000000 + tod d.

Definition dt_lt (a b : datetime) : bool := key a <? key b.
Definition dt_gt (a b : datetime) : bool := key b <? key a.

Definition is_leap (y : Z) : bool :=
  (y mod 4 =? 0) && (negb (y mod 100 =? 0) || (y mod 400 =? 0)).

Definition days_in_month (y m : Z) : Z :=
  if m =? 2 then (if is_leap y then 29 else 28)
  else if (m =? 4) || (m =? 6) || (m =? 9) || (m =? 11) then 30
  else 31.

(** The constructor [datetime(y, m, d)]: [ValueError] outside the calendar. *)
Definition make (y m d : Z) : result datetime :=
  if (1 <=? y) && (y <=? 9999) && (1 <=? m) && (m <=? 12)
     && (1 <=? d) && (d <=? days_in_month y m)
  then Ok (mkDatetime y m d 0)
  else Raise ValueError.

Definition digit (c : ascii) : Z := Z.of_N (code c) - 48.

Definition between (lo hi : N) (c : ascii) : bool :=
  ((lo <=? code c) && (code c <=? hi))%N.

(** The directives of [strptime] are regular expressions matched with
    backtracking; each function below lists the ways one directive can
    match at the head of [s], in the order the alternatives are tried,
    with the text left over. *)

(** [%d] is [3[0-1]|[1-2]\d|0[1-9]|[1-9]| [1-9]]. *)
Definition match_d (s : string) : list (Z * string) :=
  match s with
  | String a (String b r) =>
      (if (code a =? 51)%N && between 48 49 b then [(30 + digit b, r)] else [])
      ++ (if between 49 50 a && isdigit b
          then [(10 * digit a + digit b, r)] else [])
      ++ (if (code a =? 48)%N && between 49 57 b then [(digit b, r)] else [])
      ++ (if between 49 57 a then [(digit a, String b r)] else [])
      ++ (if (code a =? 32)%N && between 49 57 b then [(digit b, r)] else [])
  | String a EmptyString =>
      if between 49 57 a then [(digit a, EmptyString)] else []
  | EmptyString => []
  end.

(** [%m] is [1[0-2]|0[1-9]|[1-9]]. *)
Definition match_m (s : string) : list (Z * string) :=
  match s with
  | String a (String b r) =>
      (if (code a =? 49)%N && between 48 50 b then [(10 + digit b, r)] else [])
      ++ (if (code a =? 48)%N && between 49 57 b then [(digit b, r)] else [])
      ++ (if between 49 57 a then [(digit a, String b r)] else [])
  | String a EmptyString =>
      if between 49 57 a then [(digit a, EmptyString)] else []
  | EmptyString => []
  end.

(** [%Y] is [\d\d\d\d]. *)
Definition match_Y (s : string) : list (Z * string) :=
  match s with
  | String a (String b (String c (String d r))) =>
      if isdigit a && isdigit b && isdigit c && isdigit d
      then [(((digit a * 10 + digit b) * 10 + digit c) * 10 + digit d, r)]
      else []
  | _ => []
  end.

(** [%b] is the alternation of the month abbreviations of the C locale,
    matched without regard to case. *)
Definition month_names : list string :=
  ["jan"; "feb"; "mar"; "apr"; "may"; "jun";
   "jul"; "aug"; "sep"; "oct"; "nov"; "dec"].

Fixpoint month_number (names : list string) (n : Z) (w : string) : option Z :=
  match names with
  | [] => None
  | x :: names' =>
      if String.eqb x w then Some n else month_number names' (n + 1) w
  end.

Definition match_b (s : string) : list (Z * string) :=
  match s with
  | String a (String b (String c r)) =>
      match month_number month_names 1
              (lower (String a (String b (String c EmptyString)))) with
      | Some n => [(n, r)]
      | None => []
      end
  | _ => []
  end.

(** A literal character of the format. *)
Definition match_lit (c : ascii) (s : string) : list string :=
  match s with
  | String a r => if Ascii.eqb a c then [r] else []
  | EmptyString => []
  end.

(** A blank of the format is [\s+]: greedy, the longest run first. *)
Fixpoint match_ws0 (s : string) : list string :=
  match s with
  | String a r => (if isspace a then match_ws0 r else []) ++ [s]
  | EmptyString => [s]
  end.

Definition match_ws (s : string) : list string :=
  match s with
  | String a r => if isspace a then match_ws0 r else []
  | EmptyString => []
  end.

(** The first match decides; text left over after it is an error. *)
Definition finish (ms : list (Z * Z * Z * string)) : result datetime :=
  match ms with
  | (y, m, d, r) :: _ =>
      match r with
      | EmptyString => make y m d
      | _ => Raise ValueError
      end
  | [] => Raise ValueError
  end.

(** [datetime.datetime.strptime(s, '%d/%m/%Y')] *)
Definition strptime_dmY (s : string) : result datetime :=
  finish ('(d, r1) ← match_d s; r2 ← match_lit "/" r1;
          '(m, r3) ← match_m r2; r4 ← match_lit "/" r3;
          '(y, r5) ← match_Y r4; [(y, m, d, r5)]).

(** [datetime.datetime.strptime(s, '%d %b %Y')] *)
Definition strptime_dbY (s : string) : result datetime :=
  finish ('(d, r1) ← match_d s; r2 ← match_ws r1;
          '(m, r3) ← match_b r2; r4 ← match_ws r3;
          '(y, r5) ← match_Y r4; [(y, m, d, r5)]).

End Datetime.

Export Datetime.

(** ** Messages: what [utils.py] reads from an [email.message.Message] *)

(** A part of a multipart message other than the first. *)
Record Attachment : Set := mkAttachment {
  att_filename : option string;   (* [get_filename()] *)
  att_content_type : string;      (* [get_content_type()] *)
  att_payload : string
}.

#[global] Instance Attachment_eq_dec : EqDecision Attachment.
Proof. solve_decision. Defined.

Record Message : Set := mkMessage {
  hdr_date : string;
  hdr_from : string;
  hdr_to : string;
  hdr_subject : string;
  is_multipart : bool;
  content_type : string;          (* of the first leaf part *)
  content_body : string;          (* decoded text of the first leaf part *)
  html_text : string;             (* [BlueHTMLParser] applied to the body *)
  payload_tail : list Attachment  (* [get_payload()[1:]] *)
}.

Inductive Header : Set := HDate | HFrom | HTo | HSubject.

Module utils.

Definition get_header_param (m : Message) (name : Header) : string :=
  match name with
  | HDate => hdr_date m
  | HFrom => hdr_from m
  | HTo => hdr_to m
  | HSubject => hdr_subject m
  end.

Definition get_content_type (m : Message) : string := content_type m.

Definition get_content_body (m : Message) : string := content_body m.

Definition get_attachments (m : Message) : list Attachment :=
  if is_multipart m then payload_tail m else [].

Definition has_attachments (m : Message) : bool :=
  if negb (is_multipart m) then false else true.

End utils.

(** ** [adapter.py] *)

(** A mailbox ([mailbox.mbox]) holds its messages under the keys
    [0 .. n-1]; [mailbox[i]] raises [KeyError] for any other key, iterating
    yields the messages in key order. *)
Definition mailbox_getitem (mailbox : list Message) (i : nat) : result Message :=
  match mailbox !! i with
  | Some msg => Ok msg
  | None => Raise KeyError
  end.

Module BaseAdapter.

Record t : Set := mk { _data : list string }.

Definition __init__ (datasource : list string) : t := mk datasource.

Definition __len__ (self : t) : Z := Z.of_nat (length (_data self)).

Definition __getitem__ (self : t) (key : Z) : result string * t :=
  (list_getitem (_data self) key, self).

Definition __iter__ (self : t) : list string := _data self.

End BaseAdapter.

Module MailboxAdapter.

Record t : Set := mk {
  _data : list string;
  _mailbox : list Message;
  _filtereddata : option (list string)
}.

(** [fields = date.split()]; the first field is dropped when it is longer
    than two characters (a day of the week); then the first three fields
    are joined. A missing field raises [IndexError], which the
    [except TypeError] of the source does not catch. *)
Definition __pretty_date (date : string) : result string :=
  let fields := split date in
  bind (list_getitem fields 0) (fun f0 =>
  let fields := if (2 <? String.length f0)%nat then drop 1 fields else fields in
  bind (list_getitem fields 0) (fun a =>
  bind (list_getitem fields 1) (fun b =>
  bind (list_getitem fields 2) (fun c =>
  Ok (rjust 11 (a ++ " " ++ b ++ " " ++ c)%string))))).

(** The one-character string made of a double quote. *)
Definition dquote : string := String (ascii_of_nat 34) EmptyString.

(** [sender[1:sender.index(close, 1)]], or [sender[1:]] when [close] does
    not occur ([ValueError]). *)
Definition unquote (close : string) (sender : string) : string :=
  match find close sender 1 with
  | Some k => slice 1 k sender
  | None => slice_from 1 sender
  end.

(** The loop of [__pretty_from]: words are added while the text stays
    within 15 characters. *)
Fixpoint take_words (elems : list string) (tmp sender : string) : string :=
  match elems with
  | [] => sender
  | elem :: elems' =>
      let tmp := (tmp ++ elem ++ " ")%string in
      if (15 <? String.length tmp)%nat then sender
      else take_words elems' tmp tmp
  end.

Definition __pretty_from (sender : string) : string :=
  let sender :=
    if startswith dquote sender then unquote dquote sender
    else if startswith "<" sender then unquote ">" sender
    else sender in
  let sender := take_words (split sender) "" sender in
  ljust 15 (slice 0 15 sender).

(** Format message header info into a single text line. *)
Definition __headerline (message : Message) (number : nat) : result string :=
  let f0 := rjust 2 (str_of_nat (number + 1)) in
  let f1 := if is_multipart message then "a" else " " in
  bind (__pretty_date (utils.get_header_param message HDate)) (fun f2 =>
  let f3 := __pretty_from (utils.get_header_param message HFrom) in
  let f4 := strip (utils.get_header_param message HSubject) in
  Ok (join " " [f0; f1; f2; f3; f4])).

(** [for i in keys: try: msg = mailbox[i] except KeyError: break;
    data.append(headerline(msg, i))]. The rows appended before an
    exception stay in [data]. *)
Fixpoint fetch (mailbox : list Message) (data : list string) (keys : list nat)
  : result unit * list string :=
  match keys with
  | [] => (Ok tt, data)
  | i :: keys' =>
      match mailbox_getitem mailbox i with
      | Raise KeyError => (Ok tt, data)
      | Raise e => (Raise e, data)
      | Ok msg =>
          match __headerline msg i with
          | Ok line => fetch mailbox (data ++ [line]) keys'
          | Raise e => (Raise e, data)
          end
      end
  end.

Definition __init__ (mailbox : list Message) : result t :=
  match fetch mailbox [] (seq 0 30) with
  | (Ok _, data) => Ok (mk data mailbox None)
  | (Raise e, _) => Raise e
  end.

Definition isfiltered (self : t) : bool :=
  match _filtereddata self with
  | None => false
  | Some _ => true
  end.

Definition unfilter (self : t) : t :=
  mk (_data self) (_mailbox self) None.

(** The common shape of the three scans: the rows of the messages that
    [keep] selects, in mailbox order. *)
Fixpoint scan (keep : Message -> bool) (ms : list (nat * Message))
    (data : list string) : result (list string) :=
  match ms with
  | [] => Ok data
  | (n, m) :: ms' =>
      if keep m then
        bind (__headerline m n) (fun line => scan keep ms' (data ++ [line]))
      else scan keep ms' data
  end.

Definition __filterby_header (self : t) (param : Header) (pattern : string)
  : result (list string) :=
  scan (fun m => contains pattern (utils.get_header_param m param))
       (enumerate (_mailbox self)) [].

Definition __filter (self : t) (pattern : string) : result (list string) :=
  scan (fun m => contains pattern (utils.get_header_param m HFrom)
                 || contains pattern (utils.get_header_param m HSubject)
                 || contains pattern (utils.get_content_body m))
       (enumerate (_mailbox self)) [].

(** The loop of [__filterby_date]; [dt1] is the later bound. *)
Fixpoint date_scan (dt1 dt2 : datetime) (ms : list (nat * Message))
    (data : list string) : result (list string) :=
  match ms with
  | [] => Ok data
  | (n, m) :: ms' =>
      let date := slice 5 16 (utils.get_header_param m HDate) in
      match strptime_dbY date with
      | Raise ValueError => date_scan dt1 dt2 ms' data
      | Raise e => Raise e
      | Ok dt =>
          if dt_gt dt dt1 then date_scan dt1 dt2 ms' data
          else if dt_lt dt dt2 then Ok data
          else bind (__headerline m n) (fun line =>
               date_scan dt1 dt2 ms' (data ++ [line]))
      end
  end.

(** [now] is the value of [datetime.datetime.now()]. A first date that
    does not parse leaves [dt1 = None], and the comparison [dt2 > dt1]
    raises [TypeError]; a second date that does not parse raises
    [ValueError]. *)
Definition __filterby_date (now : datetime) (self : t)
    (date1 : string) (date2 : option string) : result (list string) :=
  bind (match strptime_dmY date1 with
        | Ok d => Ok (Some d)
        | Raise ValueError => Ok None
        | Raise e => Raise e
        end) (fun dt1 =>
  bind (match date2 with
        | Some d => strptime_dmY d
        | None => Ok now
        end) (fun dt2 =>
  match dt1 with
  | None => Raise TypeError
  | Some dt1 =>
      let '(dt1, dt2) := if dt_gt dt2 dt1 then (dt2, dt1) else (dt1, dt2) in
      date_scan dt1 dt2 (enumerate (_mailbox self)) []
  end)).

Definition is_keyword (p0 : string) (long short : string) : bool :=
  String.eqb p0 long || String.eqb p0 short.

Definition set_filtered (self : t) (data : list string) : t :=
  mk (_data self) (_mailbox self) (Some data).

(** Filter the data in the adapter with the given pattern. When the call
    raises, the adapter is left as it was. *)
Definition filterby (now : datetime) (self : t) (pattern : string) : result t :=
  match _filtereddata self with
  | Some _ => Ok self
  | None =>
      let p := split (lower pattern) in
      bind (list_getitem p 0) (fun p0 =>
      if is_keyword p0 "from" "f" && (1 <? length p)%nat then
        bind (__filterby_header self HFrom (join " " (drop 1 p)))
             (fun d => Ok (set_filtered self d))
      else if is_keyword p0 "subject" "s" && (1 <? length p)%nat then
        bind (__filterby_header self HSubject (join " " (drop 1 p)))
             (fun d => Ok (set_filtered self d))
      else if is_keyword p0 "date" "d" && (1 <? length p)%nat then
        bind (list_getitem p 1) (fun p1 =>
        if (2 <? length p)%nat then
          bind (list_getitem p 2) (fun p2 =>
          bind (__filterby_date now self p1 (Some p2))
               (fun d => Ok (set_filtered self d)))
        else
          bind (__filterby_date now self p1 None)
               (fun d => Ok (set_filtered self d)))
      else
        bind (__filter self pattern) (fun d => Ok (set_filtered self d)))
  end.

Definition __len__ (self : t) : Z :=
  match _filtereddata self with
  | None => Z.of_nat (length (_mailbox self))
  | Some fd => Z.of_nat (length fd)
  end.

(** [x[key]]: one more batch of ten rows is fetched when [key] is not in
    the rows read so far. *)
Definition __getitem__ (self : t) (key : Z) : result string * t :=
  match _filtereddata self with
  | Some fd => (list_getitem fd key, self)
  | None =>
      match list_getitem (_data self) key with
      | Ok line => (Ok line, self)
      | Raise IndexError =>
          let len_ := length (_data self) in
          match fetch (_mailbox self) (_data self) (seq len_ 10) with
          | (Ok _, data) =>
              (list_getitem data key, mk data (_mailbox self) None)
          | (Raise e, data) =>
              (Raise e, mk data (_mailbox self) None)
          end
      | Raise e => (Raise e, self)
      end
  end.

Definition __iter__ (self : t) : list string :=
  match _filtereddata self with
  | None => _data self
  | Some fd => fd
  end.

End MailboxAdapter.

Module MessageAdapter.

Record t : Set := mk { _data : list string }.

(** [_attachment = {}] is an attribute of the class: the one dictionary is
    shared by every instance, and [__init__] writes into it. The
    dictionary is therefore a state of its own, passed along. *)
Abbreviation attachments := (gmap Z Attachment).

Definition attachment_line (i : nat) (m : Attachment) : string :=
  join " " ["Attachment";
            (str_of_nat (i + 1) ++ ":")%string;
            default "<unknown>" (att_filename m);
            ("<" ++ att_content_type m ++ ">")%string].

(** [for i, m in enumerate(...): tmp.append(...); self._attachment[lineno + i] = m] *)
Fixpoint record_attachments (lineno : nat) (ms : list (nat * Attachment))
    (tmp : list string) (_attachment : attachments)
  : list string * attachments :=
  match ms with
  | [] => (tmp, _attachment)
  | (i, m) :: ms' =>
      record_attachments lineno ms'
        (tmp ++ [attachment_line i m])
        (<[Z.of_nat (lineno + i) := m]> _attachment)
  end.

Definition newline : string := String (ascii_of_nat 10) EmptyString.

Definition __init__ (_attachment : attachments) (message : Message)
  : t * attachments :=
  let data :=
    [join " " ["Date:"; utils.get_header_param message HDate];
     join " " ["To:"; strip (utils.get_header_param message HTo)];
     join " " ["From:"; strip (utils.get_header_param message HFrom)];
     join " " ["Subject:"; strip (utils.get_header_param message HSubject)]] in
  let '(data, _attachment) :=
    if utils.has_attachments message then
      let lineno := length data in
      let '(tmp, _attachment) :=
        record_attachments lineno
          (enumerate (utils.get_attachments message)) [] _attachment in
      ((data ++ tmp)%list, _attachment)
    else (data, _attachment) in
  let data :=
    if String.eqb (utils.get_content_type message) "text/html"
    then (data ++ [newline] ++ splitlines (html_text message))%list
    else (data ++ [newline]
          ++ splitlines (utils.get_content_body message))%list in
  (mk data, _attachment).

(** [try: message = self._attachment[lineno] except KeyError: pass
    finally: return message] *)
Definition get_attachment (_attachment : attachments) (self : t)
    (lineno : Z) (failobj : option Attachment) : option Attachment :=
  let message := failobj in
  match _attachment !! lineno with
  | Some m => Some m
  | None => message
  end.

Definition __len__ (self : t) : Z := Z.of_nat (length (_data self)).

Definition __getitem__ (self : t) (key : Z) : result string * t :=
  (list_getitem (_data self) key, self).

Definition __iter__ (self : t) : list string := _data self.

End MessageAdapter.

(** What a [ListView] asks of its adapter: [len(a)], [a[key]] and
    [iter(a)]. Reading a row may change the adapter (a [MailboxAdapter]
    fetches), so [adapter_getitem] returns the adapter as well. *)
Class Adapter (A : Type) : Type := {
  adapter_len : A -> Z;
  adapter_getitem : A -> Z -> result string * A;
  adapter_iter : A -> list string
}.

#[global] Instance BaseAdapter_Adapter : Adapter BaseAdapter.t := {
  adapter_len := BaseAdapter.__len__;
  adapter_getitem := BaseAdapter.__getitem__;
  adapter_iter := BaseAdapter.__iter__
}.

#[global] Instance MailboxAdapter_Adapter : Adapter MailboxAdapter.t := {
  adapter_len := MailboxAdapter.__len__;
  adapter_getitem := MailboxAdapter.__getitem__;
  adapter_iter := MailboxAdapter.__iter__
}.

#[global] Instance MessageAdapter_Adapter : Adapter MessageAdapter.t := {
  adapter_len := MessageAdapter.__len__;
  adapter_getitem := MessageAdapter.__getitem__;
  adapter_iter := MessageAdapter.__iter__
}.

(** ** [views.py]: [ListView] *)

(** Key codes of [curses] and [ord]. *)
Definition KEY_DOWN : Z := 258.
Definition KEY_UP : Z := 259.
Definition KEY_LEFT : Z := 260.
Definition KEY_RIGHT : Z := 261.
Definition KEY_NPAGE : Z := 338.
Definition KEY_PPAGE : Z := 339.
Definition ord (c : ascii) : Z := Z.of_N (code c).

Module ListView.

(** [_hlcoordinates] maps a row to the columns where the pattern starts. *)
Abbreviation coordinates := (gmap Z (list Z)).

Record t (A : Type) : Type := mk {
  _maxy : Z;
  _maxx : Z;
  _adapter : option A;
  _pos : Z;
  _top : Z;
  _bottom : Z;
  _end : Z;
  _x : Z;
  _highlight : bool;
  _hltext : option string;
  _hlcoordinates : option coordinates
}.
Arguments mk {A}.
Arguments _maxy {A}.
Arguments _maxx {A}.
Arguments _adapter {A}.
Arguments _pos {A}.
Arguments _top {A}.
Arguments _bottom {A}.
Arguments _end {A}.
Arguments _x {A}.
Arguments _highlight {A}.
Arguments _hltext {A}.
Arguments _hlcoordinates {A}.

Section Methods.
Context {A : Type} `{Adapter A}.

(** Assignments to single attributes. *)
Definition set_pos (self : t A) (v : Z) : t A :=
  mk (_maxy self) (_maxx self) (_adapter self) v (_top self)
     (_bottom self) (_end self) (_x self) (_highlight self)
     (_hltext self) (_hlcoordinates self).

Definition set_top (self : t A) (v : Z) : t A :=
  mk (_maxy self) (_maxx self) (_adapter self) (_pos self) v
     (_bottom self) (_end self) (_x self) (_highlight self)
     (_hltext self) (_hlcoordinates self).

Definition set_bottom (self : t A) (v : Z) : t A :=
  mk (_maxy self) (_maxx self) (_adapter self) (_pos self) (_top self)
     v (_end self) (_x self) (_highlight self)
     (_hltext self) (_hlcoordinates self).

Definition set_x (self : t A) (v : Z) : t A :=
  mk (_maxy self) (_maxx self) (_adapter self) (_pos self) (_top self)
     (_bottom self) (_end self) v (_highlight self)
     (_hltext self) (_hlcoordinates self).

Definition set_highlight (self : t A) (pattern : string)
    (coord : coordinates) : t A :=
  mk (_maxy self) (_maxx self) (_adapter self) (_pos self) (_top self)
     (_bottom self) (_end self) (_x self) true
     (Some pattern) (Some coord).

Definition with_adapter (self : t A) (a : option A) : t A :=
  mk (_maxy self) (_maxx self) a (_pos self) (_top self)
     (_bottom self) (_end self) (_x self) (_highlight self)
     (_hltext self) (_hlcoordinates self).

(** [maxy, maxx = window.getmaxyx()] *)
Definition __init__ (maxy maxx : Z) : t A :=
  mk maxy maxx None 0 0 maxy 0 0 false None None.

(** The setter of the property [adapter]. *)
Definition set_adapter (self : t A) (adapter_ : A) : t A :=
  mk (_maxy self) (_maxx self) (Some adapter_) (_pos self) (_top self)
     (_bottom self) (adapter_len adapter_) (_x self) (_highlight self)
     (_hltext self) (_hlcoordinates self).

(** [len(self.adapter)]: [TypeError] when there is no adapter. *)
Definition len_adapter (self : t A) : result Z :=
  match _adapter self with
  | Some a => Ok (adapter_len a)
  | None => Raise TypeError
  end.

(** Scroll the list to position y. *)
Definition _move (self : t A) (y : Z) : result (t A) :=
  if y =? _pos self then Ok self
  else if 0 <=? y then
    bind (len_adapter self) (fun n =>
    if y <? n then
      let self :=
        if y <? _top self then
          let self := set_top self y in
          set_bottom self (Z.min (y + _maxy self) n)
        else if _bottom self <? y then
          let self := set_bottom self (Z.min (y + _maxy self) n) in
          set_top self (Z.max (_bottom self - _maxy self) 0)
        else self in
      Ok (set_pos self y)
    else Ok self)
  else Ok self.

(** [for y in ys: if y in self._hlcoordinates: ...; break]: the row on
    which the loop stops, if any. *)
Fixpoint first_marked (coord : option coordinates) (ys : list Z)
  : result (option Z) :=
  match ys with
  | [] => Ok None
  | y :: ys' =>
      match coord with
      | None => Raise TypeError
      | Some c =>
          match c !! y with
          | Some _ => Ok (Some y)
          | None => first_marked coord ys'
          end
      end
  end.

Definition move_to_marked (self : t A) (ys : list Z) : result (t A) :=
  bind (first_marked (_hlcoordinates self) ys) (fun r =>
  match r with
  | Some y => _move self y
  | None => Ok self
  end).

Definition key_in (ch a b : Z) : bool := (ch =? a) || (ch =? b).

(** Receives a key code; returns whether the event is handled. *)
Definition onKey (self : t A) (ch : Z) : result (bool * t A) :=
  match _adapter self with
  | None => Ok (false, self)
  | Some a =>
      if key_in ch KEY_UP (ord "k") then
        let self :=
          if 0 <? _pos self then
            let self := set_pos self (_pos self - 1) in
            if _pos self <? _top self then
              let self := set_top self (_top self - 1) in
              set_bottom self (_bottom self - 1)
            else self
          else self in
        Ok (true, self)
      else if key_in ch KEY_DOWN (ord "j") then
        let self :=
          if _pos self <? adapter_len a - 1 then
            let self := set_pos self (_pos self + 1) in
            if _bottom self <=? _pos self then
              let self := set_top self (_top self + 1) in
              set_bottom self (_bottom self + 1)
            else self
          else self in
        Ok (true, self)
      else if ch =? KEY_PPAGE then
        let tmp := _pos self - _maxy self - 1 in
        let self :=
          if tmp <=? 0 then
            let self := set_top self 0 in
            let self := set_pos self 0 in
            set_bottom self (_maxy self)
          else
            let self := set_pos self tmp in
            let self := set_top self tmp in
            set_bottom self (_top self + _maxy self) in
        Ok (true, self)
      else if ch =? KEY_NPAGE then
        let tmp := _pos self + _maxy self - 1 in
        let self :=
          if adapter_len a - 1 <=? tmp then
            let self := set_pos self (adapter_len a - 1) in
            let self := set_bottom self (adapter_len a) in
            set_top self (_bottom self - _maxy self)
          else
            let self := set_pos self tmp in
            let self :=
              set_bottom self (Z.min (tmp + _maxy self) (adapter_len a)) in
            set_top self (_bottom self - _maxy self) in
        Ok (true, self)
      else if key_in ch KEY_LEFT (ord "h") then
        let self :=
          if 0 <? _x self then set_x self (_x self - 1) else self in
        Ok (true, self)
      else if key_in ch KEY_RIGHT (ord "l") then
        Ok (true, set_x self (_x self + 1))
      else if key_in ch (ord "n") (ord "N") && _highlight self then
        bind (move_to_marked self (range (_pos self + 1) (_end self)))
             (fun self => Ok (true, self))
      else if key_in ch (ord "p") (ord "P") && _highlight self then
        bind (move_to_marked self (range_down (_pos self - 1) 0))
             (fun self => Ok (true, self))
      else Ok (false, self)
  end.

(** [draw]: the text written to the window is not part of the model.
    What remains of [draw] is that it reads the rows [top .. bottom-1]
    of the adapter in order and stops at the first [IndexError]. *)
Fixpoint read_rows (a : A) (ys : list Z) : result unit * A :=
  match ys with
  | [] => (Ok tt, a)
  | y :: ys' =>
      match adapter_getitem a y with
      | (Ok _, a) => read_rows a ys'
      | (Raise IndexError, a) => (Ok tt, a)
      | (Raise e, a) => (Raise e, a)
      end
  end.

Definition draw (self : t A) : result unit * t A :=
  match _adapter self with
  | None => (Ok tt, self)
  | Some a =>
      let '(r, a) := read_rows a (range (_top self) (_bottom self)) in
      (r, with_adapter self (Some a))
  end.

(** The [while x >= 0] loop of [highlighttext] on the row [y]; [x] is
    the last result of [line.find]. The loop runs at most once per
    column of the row, which is what [fuel] counts. *)
Fixpoint mark (fuel : nat) (pattern line : string) (y : Z)
    (x : option nat) (coord : coordinates) : result coordinates :=
  match x with
  | None => Ok coord
  | Some x0 =>
      match fuel with
      | O => Raise (OtherError 0)
      | S fuel' =>
          let coord :=
            match coord !! y with
            | Some xs => <[y := (xs ++ [Z.of_nat x0])%list]> coord
            | None => <[y := [Z.of_nat x0]]> coord
            end in
          mark fuel' pattern line y (find pattern line (x0 + 1)) coord
      end
  end.

(** [for y, line in enumerate(self.adapter): ...] *)
Fixpoint mark_rows (pattern : string) (rows : list (nat * string))
    (coord : coordinates) : result coordinates :=
  match rows with
  | [] => Ok coord
  | (y, line) :: rows' =>
      bind (mark (S (String.length line)) pattern line (Z.of_nat y)
                 (find pattern line 0) coord)
           (fun coord => mark_rows pattern rows' coord)
  end.

(** [for y in sorted(coord.keys()): if y >= self.pos: hly = y; break] *)
Fixpoint first_from (pos : Z) (ys : list Z) (hly : Z) : Z :=
  match ys with
  | [] => hly
  | y :: ys' => if pos <=? y then y else first_from pos ys' hly
  end.

Definition sorted_keys (coord : coordinates) : list Z :=
  merge_sort Z.le (elements (dom coord)).

(** Highlights every instance of pattern; returns [len(coord)]. *)
Definition highlighttext (self : t A) (pattern : string)
  : result Z * t A :=
  match _adapter self with
  | None => (Raise TypeError, self)
  | Some a =>
      match mark_rows pattern (enumerate (adapter_iter a)) ∅ with
      | Raise e => (Raise e, self)
      | Ok coord =>
          if decide (size coord = 0%nat) then (Ok 0, self)
          else
            let self := set_highlight self pattern coord in
            let hly := first_from (_pos self) (sorted_keys coord) (_pos self) in
            match _move self hly with
            | Raise e => (Raise e, self)
            | Ok self =>
                let '(r, self) := draw self in
                (bind r (fun _ => Ok (Z.of_nat (size coord))), self)
            end
      end
  end.

End Methods.

End ListView.

(** ** [app.py]: the stack of activities *)

Module Application.

(** An activity is known by its identity (the source compares activities
    with [!=], which for these objects is identity). Its callbacks are
    opaque: a call is recorded, together with the stack it finds, and
    either returns or raises. *)
Definition activity := nat.

Inductive call (Bundle : Type) : Type :=
| onPause (a : activity)
| onCreate (a : activity) (bundle : option Bundle)
| onResume (a : activity) (bundle : option Bundle)
| onDestroy (a : activity)
| draw (a : activity).
Arguments onPause {Bundle}.
Arguments onCreate {Bundle}.
Arguments onResume {Bundle}.
Arguments onDestroy {Bundle}.
Arguments draw {Bundle}.

(** A recorded call and the stack at the time of the call. *)
Definition event (Bundle : Type) : Type := (call Bundle * list activity)%type.

Record t (Bundle : Type) : Type := mk {
  _stack : list activity;
  trace : list (event Bundle)
}.
Arguments mk {Bundle}.
Arguments _stack {Bundle}.
Arguments trace {Bundle}.

Section Lifecycle.
Context {Bundle : Type}.

(** What the callbacks do, given the calls made so far: [raises] tells
    whether a call raises, [destroyed] is the bundle that [onDestroy]
    returns. *)
Variable raises : list (event Bundle) -> call Bundle -> option exn.
Variable destroyed : list (event Bundle) -> activity -> option Bundle.

Definition invoke (self : t Bundle) (c : call Bundle)
  : result unit * t Bundle :=
  let self' := mk (_stack self) (trace self ++ [(c, _stack self)]) in
  match raises (trace self) c with
  | None => (Ok tt, self')
  | Some e => (Raise e, self')
  end.

(** [self._stack[-1]] *)
Definition top (self : t Bundle) : result activity :=
  list_getitem (_stack self) (-1).

(** Start an activity: pauses any previous activity and launches the
    activity given as its first parameter. *)
Definition _startActivity (self : t Bundle) (a : activity)
    (bundle : option Bundle) : result unit * t Bundle :=
  (* try: self._stack[-1].onPause()  except: pass *)
  let self :=
    match top self with
    | Ok p => snd (invoke self (onPause p))
    | Raise _ => self
    end in
  let self := mk (_stack self ++ [a]) (trace self) in
  match invoke self (onCreate a bundle) with
  | (Raise e, self) => (Raise e, self)
  | (Ok _, self) =>
      match invoke self (onResume a bundle) with
      | (Raise e, self) => (Raise e, self)
      | (Ok _, self) => invoke self (draw a)
      end
  end.

Definition _resumeActivity (self : t Bundle) (a : activity)
    (bundle : option Bundle) : result unit * t Bundle :=
  match invoke self (onResume a bundle) with
  | (Raise e, self) => (Raise e, self)
  | (Ok _, self) => invoke self (draw a)
  end.

(** The body of the [try] of [_destroyActivity]. *)
Definition destroy_body (self : t Bundle) (named : option activity)
  : result unit * t Bundle :=
  match top self with
  | Raise e => (Raise e, self)
  | Ok last =>
      let a := default last named in
      if decide (a ≠ last) then (Raise ValueError, self)
      else
        (* a = self._stack.pop() *)
        let self := mk (removelast (_stack self)) (trace self) in
        match invoke self (onPause last) with
        | (Raise e, self) => (Raise e, self)
        | (Ok _, self) =>
            let b := destroyed (trace self) last in
            match invoke self (onDestroy last) with
            | (Raise e, self) => (Raise e, self)
            | (Ok _, self) =>
                match top self with
                | Raise e => (Raise e, self)
                | Ok below => _resumeActivity self below b
                end
            end
        end
  end.

(** Destroy an activity. [success] starts as [True], the handler of
    [IndexError] sets it to [False], and [finally: return success] ends
    the call whatever was raised. *)
Definition _destroyActivity (self : t Bundle) (named : option activity)
  : bool * t Bundle :=
  match destroy_body self named with
  | (Ok _, self) => (true, self)
  | (Raise IndexError, self) => (false, self)
  | (Raise _, self) => (true, self)
  end.

(** [Activity.finish]: the activity destroys itself; the result of
    [_destroyActivity] is dropped. *)
Definition finish (self : t Bundle) (a : activity) : t Bundle :=
  snd (_destroyActivity self (Some a)).

End Lifecycle.

End Application.

(** ** Vocabulary of the properties *)

Module Spec.

Import MailboxAdapter.

(** The row of the [n]-th message of a mailbox. *)
Definition row_of (e : nat * Message) : result string :=
  __headerline e.2 e.1.

(** The rows of a whole mailbox, in order. *)
Definition all_rows (mailbox : list Message) : result (list string) :=
  mapM row_of (enumerate mailbox).

(** The rows read so far are the first rows of the mailbox. *)
Definition reads_prefix (a : t) (rows : list string) : Prop :=
  all_rows (_mailbox a) = Ok rows
  /\ _data a = take (length (_data a)) rows.

(** [p] occurs in [s] at some offset. *)
Definition is_substring (p s : string) : Prop :=
  exists n, String.substring n (String.length p) s = p.



(** The date of a message as the date filter reads it. *)
Definition msg_date (m : Message) : option datetime :=
  match strptime_dbY (slice 5 16 (hdr_date m)) with
  | Ok d => Some d
  | Raise _ => None
  end.

(** The date of [m] is strictly before [lo]. *)
Definition older (lo : datetime) (m : Message) : bool :=
  match msg_date m with
  | Some d => key d <? key lo
  | None => false
  end.

(** The date of [m] lies between [lo] and [hi], both included. *)
Definition in_range (lo hi : datetime) (m : Message) : bool :=
  match msg_date m with
  | Some d => (key lo <=? key d) && (key d <=? key hi)
  | None => false
  end.

(** The messages met before the first one that is older than [lo]. *)
Fixpoint scanned (lo : datetime) (ms : list (nat * Message))
  : list (nat * Message) :=
  match ms with
  | [] => []
  | e :: ms' => if older lo e.2 then [] else e :: scanned lo ms'
  end.







(** The viewport invariant of a list view. *)
Definition viewport_ok {A} (v : ListView.t A) : Prop :=
  0 <= ListView._top v /\ ListView._top v <= ListView._pos v
  /\ ListView._pos v < ListView._bottom v
  /\ ListView._bottom v - ListView._top v <= ListView._maxy v.

End Spec.

(** ** Sample data for the scenarios *)

Module Sample.

Definition message (date sender subject body : string) : Message :=
  mkMessage date sender "reader@example.org" subject false
            "text/plain" body "" [].

Definition msgA : Message :=
  message "Wed, 15 Jan 2020 10:00:00 +0000" "x@y.org" "A" "text".
Definition msgB : Message :=
  message "Sun, 01 Mar 2020 09:30:00 +0000" "x@y.org" "B" "text".
Definition msgC : Message :=
  message "Mon, 02 Mar 2020 08:00:00 +0000" "x@y.org" "C" "text".

Definition abc : list Message := [msgA; msgB; msgC].
Definition jan_mar : list Message := [msgA; msgB].
Definition mailbox41 : list Message := repeat msgA 41.

Definition now : datetime := mkDatetime 2026 11 4 0.

(** The adapter that [MailboxAdapter(mailbox)] builds. *)
Definition adapter_of (mailbox : list Message) : MailboxAdapter.t :=
  match MailboxAdapter.__init__ mailbox with
  | Ok a => a
  | Raise _ => MailboxAdapter.mk [] mailbox None
  end.

(** The state of an adapter after [filterby]. *)
Definition filtered (a : MailboxAdapter.t) (pattern : string)
  : MailboxAdapter.t :=
  match MailboxAdapter.filterby now a pattern with
  | Ok a1 => a1
  | Raise _ => a
  end.

Definition rows_of (mailbox : list Message) : list string :=
  match Spec.all_rows mailbox with
  | Ok rows => rows
  | Raise _ => []
  end.

(** A message with one attachment. *)
Definition report : Attachment :=
  mkAttachment (Some "report.pdf") "application/pdf" "%PDF".

Definition with_attachment : Message :=
  mkMessage "Tue, 03 Mar 2020 08:00:00 +0000" "x@y.org"
            "reader@example.org" "Report" true "text/plain" "see the file"
            "" [report].

(** The rows of the highlight scenario in a view of height 5. *)
Definition rows3 : list string :=
  ["a test line"; "no match"; "another test"].

Definition view_of (maxy : Z) (rows : list string)
  : ListView.t BaseAdapter.t :=
  ListView.set_adapter (ListView.__init__ maxy 80) (BaseAdapter.__init__ rows).

Definition view3 : ListView.t BaseAdapter.t := view_of 5 rows3.

Definition view20 : ListView.t BaseAdapter.t :=
  view_of 5 (repeat "row" 20).

(** The view after a call that returns a view. *)
Definition after {A} (v : ListView.t A) (r : result (bool * ListView.t A))
  : ListView.t A :=
  match r with
  | Ok (_, v') => v'
  | Raise _ => v
  end.

(** The highlight scenario: after the search, and after the key [n]. *)
Definition highlighted3 : ListView.t BaseAdapter.t :=
  (ListView.highlighttext view3 "test").2.

Definition at_second : ListView.t BaseAdapter.t :=
  after highlighted3 (ListView.onKey highlighted3 (ord "n")).



End Sample.

(** ** More methods of [str] *)

Module Str.

Import Py.

(** [s.endswith(suffix)] *)
Definition endswith (suffix s : string) : bool :=
  (String.length suffix <=? String.length s)%nat
  && String.eqb
       (slice_from (String.length s - String.length suffix) s) suffix.

(** [s.strip(chars)], with [lstrip] and [rstrip]: the characters of
    [chars] are taken off both ends. *)
Definition among (chars : string) (c : ascii) : bool :=
  existsb (Ascii.eqb c) (list_ascii_of_string chars).

Fixpoint lstrip_chars (chars : string) (s : string) : string :=
  match s with
  | EmptyString => EmptyString
  | String c s' => if among chars c then lstrip_chars chars s' else s
  end.

Definition rstrip_chars (chars : string) (s : string) : string :=
  rev_string (list_ascii_of_string
                (lstrip_chars chars (rev_string (list_ascii_of_string s)))).

Definition strip_chars (chars : string) (s : string) : string :=
  rstrip_chars chars (lstrip_chars chars s).

(** [s.partition(sep)] for a separator of one character: the text before
    the first separator, the separator and the text after it; the whole
    text and two empty strings when there is no separator. *)
Fixpoint partition (sep : ascii) (s : string) : string * string * string :=
  match s with
  | EmptyString => (EmptyString, EmptyString, EmptyString)
  | String c s' =>
      if Ascii.eqb c sep then (EmptyString, String sep EmptyString, s')
      else let '(before, found, after) := partition sep s' in
           (String c before, found, after)
  end.

(** [s[a:-b]] for [b > 0], and [s[-n:]] for [n > 0]. *)
Definition slice_but (a b : nat) (s : string) : string :=
  String.substring a (String.length s - b - a) s.

Definition slice_last (n : nat) (s : string) : string :=
  String.substring (String.length s - n) n s.

End Str.

(** ** [thunder.py]: [ThunderReader] *)

Module ThunderReader.

(** Of the reader, [_get_inbox_path] reads the list of mailbox paths
    only. *)
Record t : Set := mk { _mbpaths : list string }.

(** Return the path of the default mailbox. *)
Definition _get_inbox_path (self : t) : option string :=
  let mbpaths := List.filter (Str.endswith "INBOX") (_mbpaths self) in
  match mbpaths with
  | p :: _ => Some p
  | [] =>
      match _mbpaths self with
      | p :: _ => Some p
      | [] => None
      end
  end.

End ThunderReader.

(** ** [prefparser.py]: [PrefParser] *)

Module PrefParser.

Import Py Str.

Record t : Type := mk { _data : gmap string string }.

(** [PrefParser()] with no file to read. *)
Definition __init__ : t := mk ∅.

(** The body of the loop of [_read], for one line of the file. *)
Definition read_line (self : t) (line : string) : t :=
  if negb (startswith "user_pref" line) then self
  else if negb (contains "mail.server" line) then self
  else
    let line := slice_but 10 2 (strip line) in
    let fields := partition "," line in
    let key := strip_chars MailboxAdapter.dquote fields.1.1 in
    if negb (String.eqb (slice_last 9 key) "directory") then self
    else
      let value := strip_chars MailboxAdapter.dquote (lstrip fields.2) in
      mk (<[key := value]> (_data self)).

(** Parse the file, searching for the mail directories. *)
Definition _read (self : t) (fp : list string) : t :=
  foldl read_line self fp.

End PrefParser.

(** ** [htmlparser.py]: [BlueHTMLParser] *)

Module BlueHTMLParser.

Import Py.

(** [dict(attrs)]: the attributes of a tag by name; a name without a
    value has the value [None]. *)
Abbreviation attributes := (gmap string (option string)).

Record t : Type := mk {
  _tag : option string;
  _attrs : option attributes;
  _data : list string;
  _linkcount : nat;
  _footnotes : list string
}.

Definition lf : string := String (ascii_of_nat 10) EmptyString.
Definition crlf : string := String (ascii_of_nat 13) lf.

Definition _ignoretags : list string := ["html"; "meta"; "style"; "script"].

Definition __init__ : t := mk None None [] 0 [lf].

Definition get_result (self : t) : string :=
  join "" (_data self ++ _footnotes self).

(** Of two attributes of the same name, [dict] keeps the last one. *)
Definition dict (attrs : list (string * option string)) : attributes :=
  foldl (fun d kv => <[kv.1 := kv.2]> d) ∅ attrs.

Definition handle_starttag (self : t) (tag : string)
    (attrs : list (string * option string)) : t :=
  let self := mk (Some tag) (Some (dict attrs)) (_data self)
                 (_linkcount self) (_footnotes self) in
  if String.eqb tag "br" then
    mk (_tag self) (_attrs self) (_data self ++ [lf])
       (_linkcount self) (_footnotes self)
  else if String.eqb tag "p" then
    mk (_tag self) (_attrs self) (_data self ++ [(lf ++ lf)%string])
       (_linkcount self) (_footnotes self)
  else if String.eqb tag "a" then
    mk (_tag self) (_attrs self) (_data self)
       (_linkcount self + 1) (_footnotes self)
  else self.

Definition handle_endtag (self : t) (tag : string) : t :=
  mk (Some tag) None (_data self) (_linkcount self) (_footnotes self).

(** ['%s' % v] for a string or [None]. *)
Definition format_s (v : option string) : string := default "None" v.

(** The parser hands a string to [handle_data], so that the test for
    [None] is left out. The text is appended before the footnote is
    made: it stays appended when the footnote raises. *)
Definition handle_data (self : t) (data : string) : result unit * t :=
  if String.eqb data crlf then (Ok tt, self)
  else if match _tag self with
          | Some tag => bool_decide (tag ∈ _ignoretags)
          | None => false
          end
  then (Ok tt, self)
  else if bool_decide (_tag self = Some "a") then
    match _attrs self with
    | None =>
        (Ok tt, mk (_tag self) (_attrs self) (_data self ++ [data])
                   (_linkcount self) (_footnotes self))
    | Some attrs =>
        let number := str_of_nat (_linkcount self) in
        let self := mk (_tag self) (_attrs self)
                       (_data self ++ [(data ++ "[" ++ number ++ "]")%string])
                       (_linkcount self) (_footnotes self) in
        match attrs !! "href" with
        | None => (Raise KeyError, self)
        | Some href =>
            (Ok tt,
             mk (_tag self) (_attrs self) (_data self) (_linkcount self)
                (_footnotes self
                 ++ [("[" ++ number ++ "] " ++ data ++ ": "
                      ++ format_s href)%string]))
        end
    end
  else
    (Ok tt, mk (_tag self) (_attrs self) (_data self ++ [data])
               (_linkcount self) (_footnotes self)).

End BlueHTMLParser.

(** ** Vocabulary of the further properties *)

Module SpecX.

Import MailboxAdapter.


(** Every character of [s] is a blank. *)
Fixpoint blank (s : string) : bool :=
  match s with
  | EmptyString => true
  | String c s' => isspace c && blank s'
  end.

(** Starting the activities of a list one after the other, each with no
    bundle. *)
Fixpoint start_all {Bundle : Type}
    (raises : list (Application.event Bundle) -> Application.call Bundle
              -> option exn)
    (self : Application.t Bundle) (acts : list Application.activity)
  : Application.t Bundle :=
  match acts with
  | [] => self
  | a :: acts' =>
      start_all raises (Application._startActivity raises self a None).2 acts'
  end.

(** Destroying the top activity [n] times; the results of the calls are
    listed in order. *)
Fixpoint destroy_times {Bundle : Type}
    (raises : list (Application.event Bundle) -> Application.call Bundle
              -> option exn)
    (destroyed : list (Application.event Bundle) -> Application.activity
                 -> option Bundle)
    (self : Application.t Bundle) (n : nat)
  : list bool * Application.t Bundle :=
  match n with
  | O => ([], self)
  | S n' =>
      let '(ok, self) :=
        Application._destroyActivity raises destroyed self None in
      let '(oks, self) := destroy_times raises destroyed self n' in
      (ok :: oks, self)
  end.

(** [s] is [suffix] with something, or nothing, before it. *)
Definition ends_with (suffix s : string) : Prop :=
  exists before : string, s = (before ++ suffix)%string.

(** What the tokenizer of [HTMLParser.feed] finds in a text: start tags
    with their attributes, end tags and the text between tags. *)
Inductive token : Type :=
| StartTag (tag : string) (attrs : list (string * option string))
| EndTag (tag : string)
| Data (data : string).

(** The handler that [feed] calls for a token. *)
Definition handle (self : BlueHTMLParser.t) (tok : token)
  : result unit * BlueHTMLParser.t :=
  match tok with
  | StartTag tag attrs => (Ok tt, BlueHTMLParser.handle_starttag self tag attrs)
  | EndTag tag => (Ok tt, BlueHTMLParser.handle_endtag self tag)
  | Data data => BlueHTMLParser.handle_data self data
  end.

(** The handlers called for the tokens of a text, in order, up to the
    first one that raises. *)
Fixpoint handle_all (self : BlueHTMLParser.t) (toks : list token)
  : result unit * BlueHTMLParser.t :=
  match toks with
  | [] => (Ok tt, self)
  | tok :: toks' =>
      match handle self tok with
      | (Ok _, self) => handle_all self toks'
      | (Raise e, self) => (Raise e, self)
      end
  end.

(** A token other than an [a] start tag without [href]. *)
Definition has_href (tok : token) : Prop :=
  match tok with
  | StartTag tag attrs => tag = "a" -> "href" ∈ attrs.*1
  | _ => True
  end.

(** [s] is [prefix] with something, or nothing, after it. *)
Definition starts_with (prefix s : string) : Prop :=
  exists after : string, s = (prefix ++ after)%string.

(** The character [c] occurs in [s]. *)
Definition has_char (c : ascii) (s : string) : Prop :=
  c ∈ list_ascii_of_string s.

(** The line of [prefs.js] that sets the preference [key] to the text
    [value]: [user_pref(key, value);] with both in double quotes, and a
    line break. *)
Definition pref_line (key value : string) : string :=
  ("user_pref(" ++ MailboxAdapter.dquote ++ key ++ MailboxAdapter.dquote
   ++ ", " ++ MailboxAdapter.dquote ++ value ++ MailboxAdapter.dquote
   ++ ");" ++ BlueHTMLParser.lf)%string.

End SpecX.

(** ** Sample data for the further properties *)

Module SampleX.

(** A message whose Date header has a weekday, a day and a month only. *)
Definition short_date : Message :=
  Sample.message "Sat, 16 Jan" "x@y.org" "no year" "text".



(** A view of height 13 on the mailbox of 41 messages, scrolled to the
    rows 28 to 40, of which the adapter has read the first 30. *)
Definition view_tail : ListView.t MailboxAdapter.t :=
  ListView.mk 13 80 (Some (Sample.adapter_of Sample.mailbox41))
              28 28 41 41 0 false None None.

(** The tokens of the page that [htmlparser.py] parses when it is run
    as a program. *)
Definition page : list SpecX.token :=
  [SpecX.StartTag "html" []; SpecX.StartTag "head" [];
   SpecX.StartTag "title" []; SpecX.Data "Test"; SpecX.EndTag "title";
   SpecX.EndTag "head"; SpecX.StartTag "body" []; SpecX.StartTag "h1" [];
   SpecX.Data "Parse me!"; SpecX.EndTag "h1"; SpecX.EndTag "br";
   SpecX.StartTag "a" [("href", Some "www.test.com")]; SpecX.Data "test";
   SpecX.EndTag "a"; SpecX.EndTag "body"; SpecX.EndTag "html"].

(** The preference of the directory of the local folders. *)
Definition dir_key : string := "mail.server.server1.directory".
Definition dir_value : string := "/home/u/.thunderbird/Mail/Local Folders".

End SampleX.

(** * Properties *)

(** ** Python primitives *)

Section PyFacts.

Lemma bind_ok {A B} (r : result A) (k : A -> result B) (b : B) :
  bind r k = Ok b -> exists a, r = Ok a /\ k a = Ok b.
Proof. destruct r as [a|e]; simpl; [eauto | discriminate]. Qed.

Lemma mapM_app {A B} (f : A -> result B) (xs ys : list A) :
  mapM f (xs ++ ys)
  = bind (mapM f xs) (fun l1 => bind (mapM f ys) (fun l2 => Ok (l1 ++ l2))).
Proof.
  induction xs as [|x xs IH]; simpl.
  - destruct (mapM f ys); reflexivity.
  - destruct (f x) as [y|e]; simpl; [|reflexivity].
    rewrite IH. destruct (mapM f xs) as [l1|e]; simpl; [|reflexivity].
    destruct (mapM f ys); reflexivity.
Qed.

Lemma mapM_length {A B} (f : A -> result B) (xs : list A) (ys : list B) :
  mapM f xs = Ok ys -> length ys = length xs.
Proof.
  revert ys. induction xs as [|x xs IH]; simpl; intros ys Hm.
  - by inversion Hm.
  - destruct (f x) as [y|e]; simpl in Hm; [|discriminate].
    destruct (mapM f xs) as [l|e]; simpl in Hm; [|discriminate].
    inversion Hm; subst. simpl. f_equal. by apply IH.
Qed.

Lemma mapM_lookup {A B} (f : A -> result B) (xs : list A) (ys : list B) i x :
  mapM f xs = Ok ys -> xs !! i = Some x ->
  exists y, ys !! i = Some y /\ f x = Ok y.
Proof.
  revert ys i. induction xs as [|x0 xs IH]; simpl; intros ys i Hm Hx.
  - discriminate.
  - destruct (f x0) as [y0|e] eqn:Hf; simpl in Hm; [|discriminate].
    destruct (mapM f xs) as [l|e]; simpl in Hm; [|discriminate].
    inversion Hm; subst. destruct i as [|i]; simpl in *.
    + inversion Hx; subst. eauto.
    + by apply IH.
Qed.

Lemma mapM_take {A B} (f : A -> result B) (xs : list A) (ys : list B) k :
  mapM f xs = Ok ys -> mapM f (take k xs) = Ok (take k ys).
Proof.
  revert ys k. induction xs as [|x xs IH]; simpl; intros ys k Hm.
  - inversion Hm. by destruct k.
  - destruct (f x) as [y|e] eqn:Hf; simpl in Hm; [|discriminate].
    destruct (mapM f xs) as [l|e]; simpl in Hm; [|discriminate].
    inversion Hm; subst. destruct k as [|k]; simpl; [done|].
    rewrite Hf. simpl. by rewrite (IH l k).
Qed.

Lemma enumerate_from_length {A} (n : nat) (xs : list A) :
  length (enumerate_from n xs) = length xs.
Proof. revert n. induction xs; simpl; intros; [done | by f_equal]. Qed.

Lemma enumerate_from_lookup {A} (n i : nat) (xs : list A) :
  enumerate_from n xs !! i = (fun x => ((n + i)%nat, x)) <$> xs !! i.
Proof.
  revert n i. induction xs as [|x xs IH]; intros n i; [done|].
  destruct i as [|i]; simpl.
  - by rewrite Nat.add_0_r.
  - rewrite IH. by replace (S n + i)%nat with (n + S i)%nat by lia.
Qed.

Lemma enumerate_lookup {A} (i : nat) (xs : list A) :
  enumerate xs !! i = (fun x => (i, x)) <$> xs !! i.
Proof. unfold enumerate. by rewrite enumerate_from_lookup. Qed.

Lemma enumerate_from_app {A} (n : nat) (xs ys : list A) :
  enumerate_from n (xs ++ ys)
  = enumerate_from n xs ++ enumerate_from (n + length xs) ys.
Proof.
  revert n. induction xs as [|x xs IH]; intros n; simpl.
  - by rewrite Nat.add_0_r.
  - rewrite IH. by replace (S n + length xs)%nat with (n + S (length xs))%nat by lia.
Qed.

(** Indexing with a key that is in range. *)
Lemma list_getitem_nat {A} (xs : list A) (i : nat) :
  list_getitem xs (Z.of_nat i)
  = match xs !! i with Some x => Ok x | None => Raise IndexError end.
Proof.
  unfold list_getitem. destruct (decide (Z.of_nat i < 0)); [lia|].
  rewrite Nat2Z.id. case_decide as Hr.
  - done.
  - rewrite lookup_ge_None_2; [done | lia].
Qed.

Lemma list_getitem_raises {A} (xs : list A) (k : Z) e :
  list_getitem xs k = Raise e -> e = IndexError.
Proof.
  unfold list_getitem. repeat case_decide; try congruence;
    destruct (xs !! _); congruence.
Qed.


(** [p in s] holds exactly when [p] occurs in [s]. *)
Lemma contains_spec (p s : string) :
  contains p s = true <-> Spec.is_substring p s.
Proof.
  unfold contains, find, Spec.is_substring. split.
  - destruct (String.index 0 p s) as [m|] eqn:Hi; [|discriminate].
    intros _. exists m. by apply (String.index_correct1 0).
  - intros [n Hn]. destruct (String.index 0 p s) as [m|] eqn:Hi; [done|].
    destruct p as [|c p].
    + destruct s; simpl in Hi; discriminate.
    + exfalso. by eapply (String.index_correct3 0 n); eauto with lia.
Qed.

End PyFacts.

(** ** [MailboxAdapter] *)

Section MailboxAdapterFacts.

Import MailboxAdapter Spec.

Lemma take_length_take {X} (k : nat) (l : list X) :
  take (length (take k l)) l = take k l.
Proof.
  rewrite length_take. destruct (Nat.le_ge_cases k (length l)).
  - by rewrite Nat.min_l.
  - rewrite Nat.min_r by done. by rewrite !take_ge by lia.
Qed.

Lemma all_rows_length mailbox rows :
  all_rows mailbox = Ok rows -> length rows = length mailbox.
Proof.
  intros Hr. apply mapM_length in Hr.
  by rewrite Hr; unfold enumerate; rewrite enumerate_from_length.
Qed.

(** A row of [all_rows] is the header line of the message with that key. *)
Lemma all_rows_lookup mailbox rows i :
  all_rows mailbox = Ok rows -> (i < length mailbox)%nat ->
  exists m line, mailbox !! i = Some m /\ rows !! i = Some line
                 /\ __headerline m i = Ok line.
Proof.
  intros Hr Hi. destruct (lookup_lt_is_Some_2 mailbox i Hi) as [m Hm].
  destruct (mapM_lookup row_of _ _ i (i, m) Hr) as (line & Hl & Hh).
  - by rewrite enumerate_lookup, Hm.
  - exists m, line. auto.
Qed.

(** Fetching the keys [k .. k+n-1] after the first [k] rows leaves the
    first [k+n] rows. *)
Lemma fetch_rows mailbox rows k n :
  all_rows mailbox = Ok rows ->
  fetch mailbox (take k rows) (seq k n) = (Ok tt, take (k + n) rows).
Proof.
  intros Hr. revert k. induction n as [|n IH]; intros k; simpl.
  - by rewrite Nat.add_0_r.
  - unfold mailbox_getitem. destruct (mailbox !! k) as [msg|] eqn:Hm.
    + assert (Hk : (k < length mailbox)%nat) by by eapply lookup_lt_Some.
      destruct (all_rows_lookup _ _ _ Hr Hk) as (m & line & Hm' & Hl & Hh).
      rewrite Hm in Hm'. inversion Hm'; subst m. rewrite Hh.
      rewrite <- (take_S_r rows k line Hl), IH. by rewrite Nat.add_succ_r.
    + apply lookup_ge_None_1 in Hm. apply all_rows_length in Hr.
      by rewrite !take_ge by lia.
Qed.

Lemma init_rows mailbox rows :
  all_rows mailbox = Ok rows ->
  __init__ mailbox = Ok (mk (take 30 rows) mailbox None).
Proof.
  intros Hr. unfold __init__.
  change (fetch mailbox [] (seq 0 30))
    with (fetch mailbox (take 0 rows) (seq 0 30)).
  by rewrite (fetch_rows mailbox rows 0 30 Hr).
Qed.

Lemma init_reads_prefix mailbox rows a :
  all_rows mailbox = Ok rows -> __init__ mailbox = Ok a ->
  reads_prefix a rows /\ _filtereddata a = None /\ _mailbox a = mailbox.
Proof.
  intros Hr Hi. rewrite (init_rows _ _ Hr) in Hi. inversion Hi; subst a.
  repeat split; simpl; [done|]. by rewrite take_length_take.
Qed.

Lemma reads_prefix_length a rows :
  reads_prefix a rows -> (length (_data a) <= length (_mailbox a))%nat.
Proof.
  intros [Hr Hd]. apply all_rows_length in Hr. rewrite <- Hr.
  rewrite Hd, length_take. lia.
Qed.

(** [filterby] and [unfilter] touch neither the rows read so far nor the
    mailbox. *)
Lemma filterby_frame now a pattern a1 :
  filterby now a pattern = Ok a1 ->
  _data a1 = _data a /\ _mailbox a1 = _mailbox a.
Proof.
  unfold filterby. destruct (_filtereddata a); [by intros [= <-]|].
  intros Hf. apply bind_ok in Hf as (p0 & _ & Hf).
  repeat match type of Hf with
         | (if ?c then _ else _) = _ => destruct c
         | bind _ _ = Ok _ => apply bind_ok in Hf as (? & _ & Hf)
         end; by inversion Hf.
Qed.

End MailboxAdapterFacts.

Section GetItem.

Import MailboxAdapter Spec.




End GetItem.

Section Filters.

Import MailboxAdapter Spec.

(** C4, as amended. On an adapter that is not filtered, [filterby] with
    any query followed by [unfilter] gives back the adapter as it was:
    [len] and every [x[i]] are as before. [unfilter] on any adapter leaves
    the rows read so far and the mailbox, hence the logical length, as
    they are. *)
Theorem filterby_unfilter_roundtrip (now : datetime) (a : t)
    (pattern : string) :
  _filtereddata a = None ->
  let a1 := match filterby now a pattern with
            | Ok a1 => a1
            | Raise _ => a
            end in
  unfilter a1 = a
  /\ __len__ (unfilter a1) = __len__ a
  /\ (forall i, __getitem__ (unfilter a1) i = __getitem__ a i)
  /\ (forall b : t, _data (unfilter b) = _data b
                    /\ _mailbox (unfilter b) = _mailbox b).
Proof.
  intros Hf a1.
  assert (Hu : unfilter a1 = a).
  { subst a1. destruct (filterby now a pattern) as [a1|e] eqn:Hfb.
    - apply filterby_frame in Hfb as [Hd Hm]. unfold unfilter.
      rewrite Hd, Hm. destruct a; simpl in *; by subst.
    - destruct a; simpl in *; by subst. }
  rewrite Hu. repeat split; done.
Qed.

Lemma filterby_unfilter_roundtrip_witness :
  _filtereddata (Sample.adapter_of Sample.abc) = None
  /\ unfilter (Sample.filtered (Sample.adapter_of Sample.abc) "B")
     = Sample.adapter_of Sample.abc
  /\ __len__ (Sample.filtered (Sample.adapter_of Sample.abc) "B") = 1
  /\ __len__ (unfilter (Sample.filtered (Sample.adapter_of Sample.abc) "B"))
     = 3.
Proof.
  split; [reflexivity|]. split; [|split; reflexivity].
  apply (filterby_unfilter_roundtrip Sample.now
           (Sample.adapter_of Sample.abc) "B"). reflexivity.
Defined.

(** C4: on an adapter that is filtered already, [filterby] does nothing
    and [unfilter] removes the filter that was there: [len] goes from 1
    to 3. *)
Lemma filterby_unfilter_on_filtered :
  isfiltered (Sample.filtered (Sample.adapter_of Sample.abc) "B") = true
  /\ filterby Sample.now
       (Sample.filtered (Sample.adapter_of Sample.abc) "B") "A"
     = Ok (Sample.filtered (Sample.adapter_of Sample.abc) "B")
  /\ __len__ (Sample.filtered (Sample.adapter_of Sample.abc) "B") = 1
  /\ __len__ (unfilter (Sample.filtered (Sample.adapter_of Sample.abc) "B"))
     = 3.
Proof. vm_compute. repeat split; congruence. Qed.

(** The scans add, to the rows they start with, the rows of the messages
    that [keep] selects. *)
Lemma scan_spec keep ms data :
  scan keep ms data
  = bind (mapM row_of (List.filter (fun e => keep e.2) ms))
         (fun d => Ok (data ++ d)).
Proof.
  revert data. induction ms as [|[n m] ms IH]; intros data; simpl.
  - by rewrite app_nil_r.
  - destruct (keep m); simpl; [|apply IH].
    unfold row_of at 1. simpl. destruct (__headerline m n) as [line|e]; simpl;
      [|done].
    rewrite IH. destruct (mapM row_of _); simpl; [|done].
    by rewrite <- app_assoc.
Qed.




End Filters.

Section DateFilter.

Import MailboxAdapter Spec.

Lemma make_raises y m d e : make y m d = Raise e -> e = ValueError.
Proof. unfold make. destruct (_ && _); congruence. Qed.

Lemma finish_raises ms e : finish ms = Raise e -> e = ValueError.
Proof.
  unfold finish. destruct ms as [|[[[y m] d] r] ms]; [congruence|].
  destruct r; [apply make_raises | congruence].
Qed.

Lemma strptime_dbY_raises s e : strptime_dbY s = Raise e -> e = ValueError.
Proof. apply finish_raises. Qed.

Lemma strptime_dmY_raises s e : strptime_dmY s = Raise e -> e = ValueError.
Proof. apply finish_raises. Qed.

(** The loop of the date filter, for bounds in order of time. *)
Lemma date_scan_spec hi lo ms data :
  key lo <= key hi ->
  date_scan hi lo ms data
  = bind (mapM row_of
            (List.filter (fun e => in_range lo hi e.2) (scanned lo ms)))
         (fun d => Ok (data ++ d)).
Proof.
  intros Hle. revert data.
  induction ms as [|[n m] ms IH]; intros data; cbn [date_scan scanned].
  - simpl. by rewrite app_nil_r.
  - change (utils.get_header_param m HDate) with (hdr_date m).
    cbn [snd]. unfold older, msg_date.
    destruct (strptime_dbY (slice 5 16 (hdr_date m))) as [dt|e] eqn:Hp.
    + assert (Hin : in_range lo hi m
                    = (key lo <=? key dt) && (key dt <=? key hi))
        by (unfold in_range, msg_date; by rewrite Hp).
      unfold dt_gt, dt_lt.
      destruct (Z.ltb_spec (key hi) (key dt)) as [Hgt|Hgt].
      * (* newer than the later bound: skipped *)
        destruct (Z.ltb_spec (key dt) (key lo)); [lia|].
        cbn [List.filter snd]. rewrite Hin, IH.
        by replace (key dt <=? key hi) with false
          by (symmetry; apply Z.leb_gt; lia); rewrite andb_false_r.
      * destruct (Z.ltb_spec (key dt) (key lo)) as [Hlt|Hlt].
        -- (* older than the earlier bound: the scan stops *)
           simpl. by rewrite app_nil_r.
        -- cbn [List.filter snd]. rewrite Hin.
           replace (key lo <=? key dt) with true
             by (symmetry; apply Z.leb_le; lia).
           replace (key dt <=? key hi) with true
             by (symmetry; apply Z.leb_le; lia).
           cbn [andb mapM]. unfold row_of at 1. cbn [fst snd].
           destruct (__headerline m n) as [line|e]; cbn [bind]; [|done].
           rewrite IH. destruct (mapM row_of _); cbn [bind]; [|done].
           by rewrite <- app_assoc.
    + (* the date does not parse: skipped *)
      assert (Hin : in_range lo hi m = false)
        by (unfold in_range, msg_date; by rewrite Hp).
      rewrite (strptime_dbY_raises _ _ Hp).
      cbn [List.filter snd]. by rewrite Hin, IH.
Qed.

Lemma is_keyword_inv p0 long short :
  is_keyword p0 long short = true -> p0 = long \/ p0 = short.
Proof.
  unfold is_keyword. rewrite orb_true_iff, !String.eqb_eq. tauto.
Qed.



End DateFilter.

(** ** The stack of activities *)

Section StackFacts.

Import Application.

Context {Bundle : Type}.
Variable raises : list (event Bundle) -> call Bundle -> option exn.
Variable destroyed : list (event Bundle) -> activity -> option Bundle.

Lemma top_snoc (stack : list activity) (a : activity) tr :
  top (mk (Bundle:=Bundle) (stack ++ [a]) tr) = Ok a.
Proof.
  unfold top, list_getitem. cbn [_stack]. rewrite length_app. cbn [length].
  destruct (decide (-1 < 0)); [|lia].
  replace (-1 + Z.of_nat (length stack + 1)) with (Z.of_nat (length stack))
    by lia.
  rewrite Nat2Z.id. case_decide; [|lia].
  by rewrite list_lookup_middle.
Qed.

Lemma invoke_snd (self : t Bundle) (c : call Bundle) :
  (invoke raises self c).2
  = mk (_stack self) (trace self ++ [(c, _stack self)]).
Proof. unfold invoke. by destruct (raises _ _). Qed.

Lemma invoke_returns (self : t Bundle) (c : call Bundle) :
  raises (trace self) c = None ->
  invoke raises self c
  = (Ok tt, mk (_stack self) (trace self ++ [(c, _stack self)])).
Proof. unfold invoke. by intros ->. Qed.

Lemma top_nil tr : top (mk (Bundle:=Bundle) [] tr) = Raise IndexError.
Proof. reflexivity. Qed.

(** Naming an activity that is not on top: [ValueError] is raised before
    anything is done, and [finally: return success] turns it into a
    plain return of [True]. *)
Lemma destroy_named_not_top (stack : list activity) (last a : activity) tr :
  a <> last ->
  destroy_body raises destroyed (mk (stack ++ [last]) tr) (Some a)
  = (Raise ValueError, mk (stack ++ [last]) tr)
  /\ _destroyActivity raises destroyed (mk (stack ++ [last]) tr) (Some a)
     = (true, mk (stack ++ [last]) tr).
Proof.
  intros Hne. unfold _destroyActivity, destroy_body.
  rewrite top_snoc. simpl. by case_decide.
Qed.

(** C3 at the input [pop(A)] on the stack [[A; B]]: nothing is removed
    and no callback runs, and the call returns [True], as a successful
    pop does. *)
Theorem pop_not_top_returns_true (tr : list (event Bundle)) :
  _destroyActivity raises destroyed (mk [0; 1]%nat tr) (Some 0%nat)
  = (true, mk [0; 1]%nat tr).
Proof. by apply (destroy_named_not_top [0%nat] 1%nat 0%nat tr). Qed.

(** C7. On a stack with [top] on top, starting [a] calls [top.onPause()]
    whatever it raises, then, with [a] on the stack, [a.onCreate(bundle)],
    [a.onResume(bundle)] and [a.draw()]. Destroying the activity [last]
    takes it off the stack, then calls [last.onPause()],
    [last.onDestroy()], and, with the bundle that returned,
    [below.onResume(b)] and [below.draw()]. The callbacks named here,
    the first [onPause] apart, are taken to return. *)
Theorem start_and_destroy_order
    (stack : list activity) (top a : activity) (bundle : option Bundle)
    (tr : list (event Bundle))
    (stack' : list activity) (below last : activity)
    (tr' : list (event Bundle)) (named : option activity) :
  let e1 := (onPause top, stack ++ [top]) in
  let e2 := (onCreate a bundle, stack ++ [top; a]) in
  let e3 := (onResume a bundle, stack ++ [top; a]) in
  let e4 := (draw a, stack ++ [top; a]) in
  let f1 := (onPause last, stack' ++ [below]) in
  let f2 := (onDestroy last, stack' ++ [below]) in
  let b := destroyed (tr' ++ [f1]) last in
  let f3 := (onResume below b, stack' ++ [below]) in
  let f4 := (draw below, stack' ++ [below]) in
  raises (tr ++ [e1]) (onCreate a bundle) = None ->
  raises (tr ++ [e1; e2]) (onResume a bundle) = None ->
  raises (tr ++ [e1; e2; e3]) (draw a) = None ->
  raises tr' (onPause last) = None ->
  raises (tr' ++ [f1]) (onDestroy last) = None ->
  raises (tr' ++ [f1; f2]) (onResume below b) = None ->
  raises (tr' ++ [f1; f2; f3]) (draw below) = None ->
  named = None \/ named = Some last ->
  _startActivity raises (mk (stack ++ [top]) tr) a bundle
  = (Ok tt, mk (stack ++ [top; a]) (tr ++ [e1; e2; e3; e4]))
  /\ _destroyActivity raises destroyed (mk (stack' ++ [below; last]) tr') named
     = (true, mk (stack' ++ [below]) (tr' ++ [f1; f2; f3; f4])).
Proof.
  intros e1 e2 e3 e4 f1 f2 b f3 f4 Hc Hr Hd Hp Hy Hs Hw Hn. split.
  - unfold _startActivity. rewrite top_snoc, invoke_snd.
    cbn [_stack trace]. fold e1. rewrite <- app_assoc. cbn [app].
    rewrite invoke_returns by done. cbn [_stack trace]. fold e2.
    rewrite <- app_assoc. cbn [app].
    rewrite invoke_returns by done. cbn [_stack trace]. fold e3.
    rewrite <- app_assoc. cbn [app].
    rewrite invoke_returns by done. cbn [_stack trace]. fold e4.
    by rewrite <- app_assoc.
  - unfold _destroyActivity, destroy_body.
    replace (stack' ++ [below; last]) with ((stack' ++ [below]) ++ [last])
      by (by rewrite <- app_assoc).
    rewrite top_snoc.
    assert (Hdef : default last named = last) by (by destruct Hn as [-> | ->]).
    rewrite Hdef. case_decide; [done|].
    cbn [_stack trace]. rewrite removelast_last.
    rewrite invoke_returns by done. cbn [_stack trace]. fold f1 b.
    rewrite invoke_returns by done. cbn [_stack trace]. fold f2.
    rewrite top_snoc. unfold _resumeActivity.
    rewrite <- app_assoc. cbn [app].
    rewrite invoke_returns by done. cbn [_stack trace]. fold f3.
    rewrite <- app_assoc. cbn [app].
    rewrite invoke_returns by done. cbn [_stack trace]. fold f4.
    by rewrite <- app_assoc.
Qed.

End StackFacts.

(** The scenario of C7 with callbacks that all return, except that the
    first [onPause] raises; [onDestroy] hands back the bundle [7]. *)
Lemma start_and_destroy_order_witness :
  let raises := fun (tr : list (Application.event nat)) c =>
                  match tr, c with
                  | [], Application.onPause _ => Some (OtherError 1)
                  | _, _ => None
                  end in
  let destroyed := fun (_ : list (Application.event nat))
                       (_ : Application.activity) => Some 7%nat in
  Application._startActivity raises (Application.mk [0%nat] []) 1%nat (Some 3%nat)
  = (Ok tt,
     Application.mk [0; 1]%nat
       [(Application.onPause 0%nat, [0%nat]);
        (Application.onCreate 1%nat (Some 3%nat), [0; 1]%nat);
        (Application.onResume 1%nat (Some 3%nat), [0; 1]%nat);
        (Application.draw 1%nat, [0; 1]%nat)])
  /\ Application._destroyActivity raises destroyed
       (Application.mk [0; 1]%nat [(Application.draw 1%nat, [0; 1]%nat)]) None
     = (true,
        Application.mk [0%nat]
          [(Application.draw 1%nat, [0; 1]%nat);
           (Application.onPause 1%nat, [0%nat]);
           (Application.onDestroy 1%nat, [0%nat]);
           (Application.onResume 0%nat (Some 7%nat), [0%nat]);
           (Application.draw 0%nat, [0%nat])]).
Proof.
  intros raises destroyed.
  apply (start_and_destroy_order raises destroyed
           [] 0%nat 1%nat (Some 3%nat) []
           [] 0%nat 1%nat [(Application.draw 1%nat, [0; 1]%nat)] None);
    solve [reflexivity | by left].
Defined.

(** ** [MessageAdapter] *)

Section Attachments.

Import MessageAdapter.

(** What [record_attachments] leaves in the dictionary: the attachments
    under the keys of their lines, and what was there under every other
    key. *)
Lemma record_attachments_lookup (lineno i0 : nat) (atts : list Attachment)
    (tmp : list string) (store : gmap Z Attachment) (k : Z) :
  (record_attachments lineno (enumerate_from i0 atts) tmp store).2 !! k
  = if decide (Z.of_nat (lineno + i0) <= k
               < Z.of_nat (lineno + i0 + length atts))
    then atts !! Z.to_nat (k - Z.of_nat (lineno + i0))
    else store !! k.
Proof.
  revert i0 tmp store. induction atts as [|x atts IH]; intros i0 tmp store.
  - simpl. case_decide; [lia | done].
  - cbn [enumerate_from record_attachments length]. rewrite IH.
    destruct (decide (k = Z.of_nat (lineno + i0))) as [->|Hne].
    + rewrite lookup_insert_eq. case_decide; [lia|]. case_decide; [|lia].
      by replace (Z.to_nat _) with 0%nat by lia.
    + rewrite lookup_insert_ne by done.
      case_decide; case_decide; try lia; [|done].
      replace (Z.to_nat (k - Z.of_nat (lineno + i0)))
        with (S (Z.to_nat (k - Z.of_nat (lineno + S i0)))) by lia.
      done.
Qed.

(** With an empty dictionary to start from, [get_attachment] is as its
    docstring says: the attachment of the line, or [failobj]. *)
Lemma get_attachment_first_adapter (message : Message) (lineno : Z)
    (failobj : option Attachment) :
  let '(a, store) := __init__ ∅ message in
  get_attachment store a lineno failobj
  = if decide (4 <= lineno
               < 4 + Z.of_nat (length (utils.get_attachments message)))
    then utils.get_attachments message !! Z.to_nat (lineno - 4)
    else failobj.
Proof.
  unfold __init__, utils.has_attachments, utils.get_attachments.
  destruct (is_multipart message); cbn [negb length].
  - pose proof (record_attachments_lookup 4 0 (payload_tail message) [] ∅
                  lineno) as Hl.
    unfold enumerate.
    destruct (record_attachments 4 (enumerate_from 0 (payload_tail message))
                [] ∅) as [tmp store].
    cbn [snd] in Hl. unfold get_attachment. rewrite Hl. clear Hl.
    replace (Z.of_nat (4 + 0)) with 4 by lia.
    replace (Z.of_nat (4 + 0 + length (payload_tail message)))
      with (4 + Z.of_nat (length (payload_tail message))) by lia.
    destruct (decide _) as [Hr|Hr]; [|by rewrite lookup_empty].
    destruct (payload_tail message !! Z.to_nat (lineno - 4)) eqn:Hp; [done|].
    apply lookup_ge_None_1 in Hp. lia.
  - unfold get_attachment. rewrite lookup_empty. cbn [length].
    case_decide; [lia | done].
Qed.

(** C10 at the input: an adapter for a message with an attachment, then
    an adapter for a message without. Line 4 of the second adapter is the
    blank line before the body, and [get_attachment(4)] on it returns
    the attachment of the first message instead of [failobj]. *)
Theorem get_attachment_of_previous_message :
  utils.get_attachments Sample.msgA = []
  /\ _data (__init__ (__init__ ∅ Sample.with_attachment).2 Sample.msgA).1
     !! 4%nat = Some newline
  /\ get_attachment
       (__init__ (__init__ ∅ Sample.with_attachment).2 Sample.msgA).2
       (__init__ (__init__ ∅ Sample.with_attachment).2 Sample.msgA).1
       4 None
     = Some Sample.report.
Proof. repeat split; vm_compute; reflexivity. Qed.

End Attachments.

(** ** [ListView]: the viewport *)

Section Viewport.

Import ListView Spec.
Context {A : Type} `{Adapter A}.

(** X14. The keys that move by a row or by a page keep the viewport invariant
    on a view whose list is at least as long as the viewport is high. *)
Lemma paging_keeps_viewport (v v' : t A) (a : A) (ch : Z) (handled : bool) :
  _adapter v = Some a ->
  1 <= _maxy v <= adapter_len a ->
  viewport_ok v ->
  ch ∈ [KEY_UP; ord "k"; KEY_DOWN; ord "j"; KEY_PPAGE; KEY_NPAGE] ->
  onKey v ch = Ok (handled, v') ->
  viewport_ok v' /\ _maxy v' = _maxy v /\ _adapter v' = _adapter v.
Proof.
  intros Ha Hm (H0 & H1 & H2 & H3) Hch Hk.
  unfold onKey in Hk. rewrite Ha in Hk.
  unfold viewport_ok.
  repeat (apply elem_of_cons in Hch as [-> | Hch]);
    [ .. | by apply elem_of_nil in Hch ];
    repeat match type of Hk with
           | context [key_in ?x ?y ?z] =>
               let b := eval vm_compute in (key_in x y z) in
               change (key_in x y z) with b in Hk
           | context [?x =? KEY_PPAGE] =>
               let b := eval vm_compute in (x =? KEY_PPAGE) in
               change (x =? KEY_PPAGE) with b in Hk
           | context [?x =? KEY_NPAGE] =>
               let b := eval vm_compute in (x =? KEY_NPAGE) in
               change (x =? KEY_NPAGE) with b in Hk
           end;
    cbv iota in Hk;
    repeat match type of Hk with
           | context [if ?c then _ else _] =>
               let E := fresh "E" in
               destruct c eqn:E; cbn [_pos _top _bottom _maxy _adapter
                 set_pos set_top set_bottom] in Hk, E
           end;
    inversion Hk; subst; cbn [_pos _top _bottom _maxy _adapter
                              set_pos set_top set_bottom];
    repeat match goal with
           | E : (_ <? _) = true |- _ => apply Z.ltb_lt in E
           | E : (_ <? _) = false |- _ => apply Z.ltb_ge in E
           | E : (_ <=? _) = true |- _ => apply Z.leb_le in E
           | E : (_ <=? _) = false |- _ => apply Z.leb_gt in E
           end;
    repeat split; lia.
Qed.

End Viewport.

(** C2 at three inputs. A list of 3 rows in a viewport of height 5: the
    view starts within the invariant and [KEY_NPAGE] leaves [top = -2].
    An empty list: [KEY_NPAGE] leaves the cursor at [-1]. A list of 20
    rows: [_move(5)], the row just below the window [0 .. 4], sets the
    cursor to 5 and leaves the window as it is. *)
Theorem page_down_breaks_viewport :
  Spec.viewport_ok Sample.view3
  /\ ListView.onKey Sample.view3 KEY_NPAGE
     = Ok (true, ListView.set_top
                   (ListView.set_bottom (ListView.set_pos Sample.view3 2) 3)
                   (-2))
  /\ ~ Spec.viewport_ok
         (Sample.after Sample.view3 (ListView.onKey Sample.view3 KEY_NPAGE))
  /\ ListView._pos
       (Sample.after (Sample.view_of 5 [])
          (ListView.onKey (Sample.view_of 5 []) KEY_NPAGE)) = -1
  /\ Spec.viewport_ok Sample.view20
  /\ ListView._move Sample.view20 5 = Ok (ListView.set_pos Sample.view20 5)
  /\ ~ Spec.viewport_ok (ListView.set_pos Sample.view20 5).
Proof.
  unfold Spec.viewport_ok. repeat split; try (vm_compute; congruence).
  - intros (H0 & _). vm_compute in H0. congruence.
  - intros (_ & _ & H2 & _). vm_compute in H2. congruence.
Qed.

(** ** [ListView]: walking the highlighted rows *)

Section Matches.

Import ListView Spec.
Context {A : Type} `{Adapter A}.





End Matches.

(** C9 at the input: the rows of the highlight scenario, the cursor brought
    to row 2 by the key [n]. Row 0 is a marked row before the cursor, and
    the key [p] leaves the cursor on row 2. *)
Theorem prev_match_skips_first_row :
  (ListView.highlighttext Sample.view3 "test").1 = Ok 2
  /\ ListView._pos Sample.highlighted3 = 0
  /\ ListView._pos Sample.at_second = 2
  /\ (exists coord, ListView._hlcoordinates Sample.at_second = Some coord
                    /\ is_Some (coord !! 0) /\ coord !! 1 = None)
  /\ ListView.onKey Sample.at_second (ord "p") = Ok (true, Sample.at_second).
Proof.
  repeat split; try (vm_compute; reflexivity).
  eexists. split; [vm_compute; reflexivity|]. split; [|reflexivity].
  by eexists.
Qed.

(** ** [ListView]: the highlight search *)

Section Highlight.

Import ListView Spec.
Context {A : Type} `{Adapter A}.

















End Highlight.

(** The three adapters raise nothing but [IndexError] when a row is read. *)
Section AdapterRaises.


Lemma MessageAdapter_getitem_raises (a : MessageAdapter.t) (k : Z)
    (e : exn) :
  (adapter_getitem a k).1 = Raise e -> e = IndexError.
Proof. apply list_getitem_raises. Qed.

Lemma pretty_date_raises (date : string) (e : exn) :
  MailboxAdapter.__pretty_date date = Raise e -> e = IndexError.
Proof.
  unfold MailboxAdapter.__pretty_date.
  repeat match goal with
         | |- bind ?r _ = Raise _ -> _ =>
             let E := fresh "E" in
             destruct r eqn:E; cbn [bind];
             [|intros [= <-]; by eapply list_getitem_raises]
         end.
  discriminate.
Qed.

Lemma headerline_raises (m : Message) (n : nat) (e : exn) :
  MailboxAdapter.__headerline m n = Raise e -> e = IndexError.
Proof.
  unfold MailboxAdapter.__headerline.
  destruct (MailboxAdapter.__pretty_date _) eqn:E; cbn [bind];
    [discriminate|].
  intros [= <-]. by eapply pretty_date_raises.
Qed.

Lemma fetch_raises (mailbox : list Message) (data : list string)
    (keys : list nat) (e : exn) :
  (MailboxAdapter.fetch mailbox data keys).1 = Raise e -> e = IndexError.
Proof.
  revert data. induction keys as [|i keys IH]; intros data; [discriminate|].
  cbn [MailboxAdapter.fetch]. unfold mailbox_getitem.
  destruct (mailbox !! i) as [msg|]; [|discriminate].
  destruct (MailboxAdapter.__headerline msg i) eqn:E; [apply IH|].
  intros [= <-]. by eapply headerline_raises.
Qed.

Lemma MailboxAdapter_getitem_raises (a : MailboxAdapter.t) (k : Z)
    (e : exn) :
  (adapter_getitem a k).1 = Raise e -> e = IndexError.
Proof.
  cbn [adapter_getitem MailboxAdapter_Adapter].
  unfold MailboxAdapter.__getitem__.
  destruct (MailboxAdapter._filtereddata a);
    [apply list_getitem_raises|].
  destruct (list_getitem (MailboxAdapter._data a) k) as [line|e0] eqn:E;
    [discriminate|].
  apply list_getitem_raises in E as ->.
  pose proof (fetch_raises (MailboxAdapter._mailbox a)
                (MailboxAdapter._data a)
                (seq (length (MailboxAdapter._data a)) 10)) as Hf.
  destruct (MailboxAdapter.fetch _ _ _) as [[[]|e1] data]; cbn [fst] in *.
  - apply list_getitem_raises.
  - intros [= <-]. by apply Hf.
Qed.

End AdapterRaises.



(** * Further properties *)

(** ** [MailboxAdapter]: construction *)

Section Construction.

Import MailboxAdapter Spec.

(** A failing header line among the keys that are fetched makes the fetch
    raise [IndexError]. *)
Lemma fetch_bad_row mailbox data k n i m :
  (k <= i < k + n)%nat -> mailbox !! i = Some m ->
  is_ok (__headerline m i) = false ->
  (fetch mailbox data (seq k n)).1 = Raise IndexError.
Proof.
  revert k data. induction n as [|n IH]; intros k data Hi Hm Hbad; [lia|].
  cbn [seq fetch]. unfold mailbox_getitem.
  destruct (mailbox !! k) as [msg|] eqn:Hk.
  - destruct (__headerline msg k) as [line|e] eqn:Hh.
    + destruct (decide (i = k)) as [->|Hne].
      * rewrite Hm in Hk. inversion Hk; subst msg. by rewrite Hh in Hbad.
      * apply IH; [lia | done ..].
    + by rewrite (headerline_raises _ _ _ Hh).
  - apply lookup_ge_None_1 in Hk. apply lookup_lt_Some in Hm. lia.
Qed.



(** X2. One message without a header line among the first 30 makes the
    constructor raise [IndexError]: no adapter is built. *)
Theorem init_raises_on_bad_date (mailbox : list Message) (i : nat)
    (m : Message) :
  (i < 30)%nat -> mailbox !! i = Some m ->
  is_ok (__headerline m i) = false ->
  __init__ mailbox = Raise IndexError.
Proof.
  intros Hi Hm Hbad. unfold __init__.
  pose proof (fetch_bad_row mailbox [] 0 30 i m ltac:(lia) Hm Hbad) as Hf.
  destruct (fetch mailbox [] (seq 0 30)) as [[u|e] data]; cbn [fst] in Hf;
    congruence.
Qed.

End Construction.

Lemma init_raises_on_bad_date_witness :
  (1 < 30)%nat
  /\ [Sample.msgA; SampleX.short_date] !! 1%nat = Some SampleX.short_date
  /\ is_ok (MailboxAdapter.__headerline SampleX.short_date 1) = false
  /\ MailboxAdapter.__init__ [Sample.msgA; SampleX.short_date]
     = Raise IndexError.
Proof.
  split; [lia|]. split; [reflexivity|]. split; [reflexivity|].
  apply (init_raises_on_bad_date [Sample.msgA; SampleX.short_date] 1
           SampleX.short_date); [lia | reflexivity | reflexivity].
Defined.

(** ** [MailboxAdapter]: the other filters *)

Section OtherFilters.

Import MailboxAdapter Spec SpecX.





(** X5. A date query whose second date does not parse raises
    [ValueError]; one whose first date does not parse, the second being
    absent or in order, raises [TypeError]. In both cases no filter is
    set. *)
Theorem filterby_bad_date (now : datetime) (a : t)
    (pattern p0 d1 : string) (rest : list string) :
  _filtereddata a = None ->
  split (lower pattern) = p0 :: d1 :: rest ->
  is_keyword p0 "date" "d" = true ->
  (forall d2 rest', rest = d2 :: rest' ->
     is_ok (strptime_dmY d2) = false ->
     filterby now a pattern = Raise ValueError)
  /\ (is_ok (strptime_dmY d1) = false ->
      match rest with
      | [] => True
      | d2 :: _ => is_ok (strptime_dmY d2) = true
      end ->
      filterby now a pattern = Raise TypeError).
Proof.
  intros Hf Hs Hk.
  assert (Hfrom : is_keyword p0 "from" "f" = false)
    by (apply is_keyword_inv in Hk as [-> | ->]; reflexivity).
  assert (Hsub : is_keyword p0 "subject" "s" = false)
    by (apply is_keyword_inv in Hk as [-> | ->]; reflexivity).
  split.
  - intros d2 rest' -> H2. unfold filterby. rewrite Hf, Hs.
    change (list_getitem (p0 :: d1 :: d2 :: rest') 0) with (Ok (A:=string) p0).
    cbn [bind]. rewrite Hfrom, Hsub, Hk. cbn [andb length Nat.ltb Nat.leb].
    change 1 with (Z.of_nat 1). change 2 with (Z.of_nat 2).
    rewrite !list_getitem_nat. cbn [lookup list_lookup bind].
    unfold __filterby_date.
    destruct (strptime_dmY d2) as [t2|e2] eqn:H2'; [done|].
    rewrite (strptime_dmY_raises _ _ H2').
    destruct (strptime_dmY d1) as [t1|e1] eqn:H1'; [done|].
    by rewrite (strptime_dmY_raises _ _ H1').
  - intros H1 H2. unfold filterby. rewrite Hf, Hs.
    change (list_getitem (p0 :: d1 :: rest) 0) with (Ok (A:=string) p0).
    cbn [bind]. rewrite Hfrom, Hsub, Hk. cbn [andb length Nat.ltb Nat.leb].
    change 1 with (Z.of_nat 1). rewrite list_getitem_nat.
    cbn [lookup list_lookup bind].
    destruct (strptime_dmY d1) as [t1|e1] eqn:H1'; [done|].
    pose proof (strptime_dmY_raises _ _ H1') as ->.
    destruct rest as [|d2 rest'].
    + cbn [length Nat.ltb Nat.leb bind]. unfold __filterby_date.
      by rewrite H1'.
    + cbn [length Nat.ltb Nat.leb]. change 2 with (Z.of_nat 2).
      rewrite list_getitem_nat. cbn [lookup list_lookup bind].
      unfold __filterby_date. rewrite H1'. cbn [bind].
      by destruct (strptime_dmY d2).
Qed.

Lemma filterby_bad_date_witness :
  _filtereddata (Sample.adapter_of Sample.jan_mar) = None
  /\ split (lower "date 31/02/2020") = ["date"; "31/02/2020"]
  /\ is_keyword "date" "date" "d" = true
  /\ is_ok (strptime_dmY "31/02/2020") = false
  /\ filterby Sample.now (Sample.adapter_of Sample.jan_mar) "date 31/02/2020"
     = Raise TypeError.
Proof.
  repeat (split; [reflexivity|]).
  apply (filterby_bad_date Sample.now (Sample.adapter_of Sample.jan_mar)
           "date 31/02/2020" "date" "31/02/2020" []);
    solve [reflexivity | exact I].
Defined.

Lemma isspace_lower_char (c : ascii) :
  isspace c = true -> lower_char c = c.
Proof.
  destruct c as [[] [] [] [] [] [] [] []]; vm_compute; congruence.
Qed.

Lemma blank_split_aux (s : string) :
  blank s = true -> split_aux (lower s) [] = [].
Proof.
  induction s as [|c s IH]; [done|]. cbn [blank lower split_aux].
  intros [Hc Hs]%andb_true_iff.
  rewrite (isspace_lower_char c Hc), Hc. by apply IH.
Qed.

(** X6. A query that is empty or made of blanks only makes [filterby]
    raise [IndexError] on an adapter that is not filtered: [p[0]] is read
    from an empty list of words. *)
Theorem filterby_blank_query (now : datetime) (a : t) (pattern : string) :
  _filtereddata a = None ->
  blank pattern = true ->
  filterby now a pattern = Raise IndexError.
Proof.
  intros Hf Hb. unfold filterby, split. rewrite Hf.
  by rewrite (blank_split_aux pattern Hb).
Qed.

Lemma filterby_blank_query_witness :
  _filtereddata (Sample.adapter_of Sample.abc) = None
  /\ blank "  " = true
  /\ filterby Sample.now (Sample.adapter_of Sample.abc) "  "
     = Raise IndexError.
Proof.
  split; [reflexivity|]. split; [reflexivity|].
  apply filterby_blank_query; reflexivity.
Defined.

End OtherFilters.

(** ** [MailboxAdapter]: what a filter can yield *)

Section FilterResults.

Import MailboxAdapter Spec SpecX.

Lemma filter_sublist {X} (g : X -> bool) (l : list X) :
  List.filter g l `sublist_of` l.
Proof.
  induction l as [|x l IH]; simpl; [constructor|].
  destruct (g x); by constructor.
Qed.

Lemma scanned_sublist lo ms : scanned lo ms `sublist_of` ms.
Proof.
  induction ms as [|e ms IH]; simpl; [constructor|].
  destruct (older lo e.2); [apply sublist_nil_l | by constructor].
Qed.

(** Mapping over a subsequence gives a subsequence of the results. *)
Lemma mapM_sublist {X Y} (f : X -> result Y) (l1 l2 : list X) (r : list Y) :
  l1 `sublist_of` l2 -> mapM f l2 = Ok r ->
  exists d, mapM f l1 = Ok d /\ d `sublist_of` r.
Proof.
  intros Hs. revert r. induction Hs as [|x l1 l2 Hs IH|x l1 l2 Hs IH];
    intros r Hm; simpl in *.
  - exists []. split; [done | apply sublist_nil_l].
  - destruct (f x) as [y|e]; simpl in *; [|discriminate].
    destruct (mapM f l2) as [r2|e]; simpl in *; [|discriminate].
    inversion Hm; subst r. destruct (IH r2 eq_refl) as (d & -> & Hd).
    exists (y :: d). split; [done | by constructor].
  - destruct (f x) as [y|e]; simpl in *; [|discriminate].
    destruct (mapM f l2) as [r2|e]; simpl in *; [|discriminate].
    inversion Hm; subst r. destruct (IH r2 eq_refl) as (d & -> & Hd).
    exists d. split; [done | by constructor].
Qed.

(** Whatever the query, the rows of a filter that is set are the rows of
    a subsequence of the messages. *)
Lemma filterby_selection now a pattern a1 :
  _filtereddata a = None ->
  filterby now a pattern = Ok a1 ->
  exists sel fd, sel `sublist_of` enumerate (_mailbox a)
                 /\ mapM row_of sel = Ok fd
                 /\ a1 = set_filtered a fd.
Proof.
  intros Hf. unfold filterby. rewrite Hf.
  intros Hfb. apply bind_ok in Hfb as (p0 & _ & Hfb).
  assert (Hscan : forall keep r,
    bind (scan keep (enumerate (_mailbox a)) [])
         (fun d => Ok (set_filtered a d)) = Ok r ->
    exists sel fd, sel `sublist_of` enumerate (_mailbox a)
                   /\ mapM row_of sel = Ok fd /\ r = set_filtered a fd).
  { intros keep r Hr. rewrite scan_spec in Hr.
    destruct (mapM row_of _) as [fd|e] eqn:Hm; simpl in Hr; [|discriminate].
    inversion Hr. eexists _, fd. split; [apply filter_sublist|]. by split. }
  assert (Hdate : forall d1 d2 r,
    bind (__filterby_date now a d1 d2)
         (fun d => Ok (set_filtered a d)) = Ok r ->
    exists sel fd, sel `sublist_of` enumerate (_mailbox a)
                   /\ mapM row_of sel = Ok fd /\ r = set_filtered a fd).
  { intros d1 d2 r Hr. unfold __filterby_date in Hr.
    apply bind_ok in Hr as (fd0 & Hr & Hr').
    apply bind_ok in Hr as (dt1 & _ & Hr).
    apply bind_ok in Hr as (dt2 & _ & Hr).
    destruct dt1 as [dt1|]; [|discriminate].
    assert (Hspec : exists lo hi, key lo <= key hi
              /\ date_scan hi lo (enumerate (_mailbox a)) [] = Ok fd0).
    { unfold dt_gt in Hr. destruct (Z.ltb_spec (key dt1) (key dt2)).
      - exists dt1, dt2. split; [lia | done].
      - exists dt2, dt1. split; [lia | done]. }
    destruct Hspec as (lo & hi & Hle & Hsc).
    rewrite date_scan_spec in Hsc by done.
    destruct (mapM row_of _) as [fd|e] eqn:Hm; simpl in Hsc; [|discriminate].
    inversion Hsc; subst fd0. inversion Hr'.
    eexists _, fd. split; [|by split].
    etrans; [apply filter_sublist | apply scanned_sublist]. }
  repeat match type of Hfb with
         | (if ?c then _ else _) = _ => destruct c
         | bind (list_getitem _ _) _ = Ok _ =>
             apply bind_ok in Hfb as (? & _ & Hfb)
         end;
    first [ by eapply Hscan | by eapply Hdate ].
Qed.

(** X7. A filter that [filterby] sets on an adapter holds a subsequence of
    the rows of the mailbox: no row is made up, repeated or moved, and the
    filtered length is at most the length of the mailbox. The rows read so
    far and the mailbox are left as they were. *)
Theorem filterby_yields_subsequence (now : datetime) (a a1 : t)
    (pattern : string) (rows : list string) :
  _filtereddata a = None ->
  all_rows (_mailbox a) = Ok rows ->
  filterby now a pattern = Ok a1 ->
  isfiltered a1 = true
  /\ __iter__ a1 `sublist_of` rows
  /\ 0 <= __len__ a1 <= Z.of_nat (length (_mailbox a))
  /\ _data a1 = _data a /\ _mailbox a1 = _mailbox a.
Proof.
  intros Hf Hr Hfb.
  destruct (filterby_selection now a pattern a1 Hf Hfb)
    as (sel & fd & Hsel & Hm & ->).
  destruct (mapM_sublist row_of _ _ rows Hsel Hr) as (d & Hd & Hsub).
  rewrite Hm in Hd. inversion Hd; subst d.
  unfold isfiltered, __iter__, __len__. cbn [set_filtered _filtereddata
    _data _mailbox].
  repeat split; try done; [lia|].
  apply sublist_length in Hsub. rewrite (all_rows_length _ _ Hr) in Hsub. lia.
Qed.

Lemma filterby_yields_subsequence_witness :
  _filtereddata (Sample.adapter_of Sample.abc) = None
  /\ all_rows (_mailbox (Sample.adapter_of Sample.abc))
     = Ok (Sample.rows_of Sample.abc)
  /\ filterby Sample.now (Sample.adapter_of Sample.abc) "s c"
     = Ok (Sample.filtered (Sample.adapter_of Sample.abc) "s c")
  /\ __iter__ (Sample.filtered (Sample.adapter_of Sample.abc) "s c")
     `sublist_of` Sample.rows_of Sample.abc.
Proof.
  assert (H1 : _filtereddata (Sample.adapter_of Sample.abc) = None)
    by reflexivity.
  assert (H2 : all_rows (_mailbox (Sample.adapter_of Sample.abc))
               = Ok (Sample.rows_of Sample.abc)) by reflexivity.
  assert (H3 : filterby Sample.now (Sample.adapter_of Sample.abc) "s c"
               = Ok (Sample.filtered (Sample.adapter_of Sample.abc) "s c"))
    by reflexivity.
  split; [exact H1|]. split; [exact H2|]. split; [exact H3|].
  exact (proj1 (proj2 (filterby_yields_subsequence _ _ _ _ _ H1 H2 H3))).
Defined.

End FilterResults.

(** ** [MailboxAdapter]: the header line *)

Section HeaderLine.

Import MailboxAdapter Spec SpecX.

Lemma length_append (s1 s2 : string) :
  String.length (s1 ++ s2)%string
  = (String.length s1 + String.length s2)%nat.
Proof. induction s1 as [|c s1 IH]; simpl; [done | by rewrite IH]. Qed.

Lemma length_spaces (n : nat) : String.length (spaces n) = n.
Proof. induction n as [|n IH]; simpl; [done | by rewrite IH]. Qed.

Lemma length_substring_0 (m : nat) (s : string) :
  String.length (String.substring 0 m s) = Nat.min m (String.length s).
Proof.
  revert m. induction s as [|c s IH]; intros [|m]; simpl; try done.
  by rewrite IH.
Qed.

Lemma length_ljust (w : nat) (s : string) :
  String.length (ljust w s) = Nat.max w (String.length s).
Proof. unfold ljust. rewrite length_append, length_spaces. lia. Qed.


(** X8. The sender column of a header line is exactly 15 characters wide,
    whatever the From header is. *)
Theorem pretty_from_width (sender : string) :
  String.length (__pretty_from sender) = 15%nat.
Proof.
  unfold __pretty_from, slice. rewrite length_ljust, length_substring_0. lia.
Qed.



End HeaderLine.

(** ** [MailboxAdapter]: reading rows in order *)

Section InOrder.

Import MailboxAdapter Spec.

(** One read of an adapter that is not filtered: a row already read is
    returned as it is, any other key fetches the next ten rows first. *)
Lemma getitem_step (a : t) (rows : list string) (i : nat) :
  reads_prefix a rows -> _filtereddata a = None ->
  let n := length (_data a) in
  __getitem__ a (Z.of_nat i)
  = if decide (i < n)%nat
    then (match rows !! i with
          | Some line => Ok line
          | None => Raise IndexError
          end, a)
    else (match take (n + 10) rows !! i with
          | Some line => Ok line
          | None => Raise IndexError
          end, mk (take (n + 10) rows) (_mailbox a) None).
Proof.
  intros [Hr Hd] Hf n. unfold __getitem__. rewrite Hf, list_getitem_nat.
  case_decide as Hi.
  - destruct (lookup_lt_is_Some_2 (_data a) i Hi) as [line Hline].
    rewrite Hline. rewrite Hd, lookup_take_lt in Hline by done.
    by rewrite Hline.
  - rewrite lookup_ge_None_2 by (fold n; lia).
    replace (fetch (_mailbox a) (_data a) (seq (length (_data a)) 10))
      with (fetch (_mailbox a) (take n rows) (seq n 10))
      by (by subst n; rewrite <- Hd).
    by rewrite (fetch_rows _ _ n 10 Hr), list_getitem_nat.
Qed.

(** Reading the rows [top], [top+1], ... in order, from a row that is read
    already or is the next one to read. *)
Lemma read_rows_in_order (a : t) (rows : list string) (top n : nat) :
  reads_prefix a rows -> _filtereddata a = None ->
  (top <= length (_data a))%nat ->
  let r := ListView.read_rows a (seqZ (Z.of_nat top) (Z.of_nat n)) in
  r.1 = Ok tt
  /\ reads_prefix r.2 rows /\ _filtereddata r.2 = None
  /\ _mailbox r.2 = _mailbox a
  /\ (Nat.min (top + n) (length rows) <= length (_data r.2))%nat.
Proof.
  revert a top. induction n as [|n IH]; intros a top Hp Hf Ht r.
  - subst r. rewrite seqZ_nil by lia. cbn [ListView.read_rows fst snd].
    do 4 (split; [done|]). lia.
  - subst r. rewrite seqZ_cons by lia.
    replace (Z.succ (Z.of_nat top)) with (Z.of_nat (S top)) by lia.
    replace (Z.pred (Z.of_nat (S n))) with (Z.of_nat n) by lia.
    cbn [ListView.read_rows adapter_getitem MailboxAdapter_Adapter].
    pose proof (reads_prefix_length a rows Hp) as Hlen.
    pose proof (all_rows_length _ _ (proj1 Hp)) as Hrows.
    rewrite (getitem_step a rows top Hp Hf). cbv zeta.
    case_decide as Hi.
    + destruct (lookup_lt_is_Some_2 rows top ltac:(lia)) as [line ->].
      destruct (IH a (S top) Hp Hf ltac:(lia)) as (H1 & H2 & H3 & H4 & H5).
      do 4 (split; [done|]). lia.
    + assert (Hp1 : reads_prefix
                      (mk (take (length (_data a) + 10) rows) (_mailbox a) None)
                      rows).
      { split; [apply Hp|]. cbn [_data]. by rewrite take_length_take. }
      destruct (decide (top < length rows)%nat) as [Hin|Hout].
      * rewrite lookup_take_lt by lia.
        destruct (lookup_lt_is_Some_2 rows top Hin) as [line ->].
        destruct (IH _ (S top) Hp1 eq_refl) as (H1 & H2 & H3 & H4 & H5).
        { cbn [_data]. rewrite length_take. lia. }
        do 4 (split; [done|]). lia.
      * rewrite lookup_ge_None_2 by (rewrite length_take; lia). cbn [fst snd].
        do 4 (split; [done|]). cbn [_data]. rewrite length_take. lia.
Qed.

(** X10. Drawing a view reads the rows of its window in order. On a
    mailbox list that is not filtered and whose window starts within the
    rows read so far (or right after them), [draw] returns and leaves all
    rows of the window read, up to the end of the mailbox: read in order,
    the rows are fetched batch after batch and none is missed. *)
Theorem draw_reads_whole_window (v : ListView.t t) (a : t)
    (rows : list string) :
  ListView._adapter v = Some a ->
  reads_prefix a rows -> _filtereddata a = None ->
  0 <= ListView._top v <= Z.of_nat (length (_data a)) ->
  ListView._top v <= ListView._bottom v ->
  (ListView.draw v).1 = Ok tt
  /\ exists a', ListView._adapter (ListView.draw v).2 = Some a'
       /\ reads_prefix a' rows /\ _filtereddata a' = None
       /\ _mailbox a' = _mailbox a
       /\ Z.min (ListView._bottom v) (Z.of_nat (length rows))
          <= Z.of_nat (length (_data a')).
Proof.
  intros Ha Hp Hf Ht Hb. unfold ListView.draw, range. rewrite Ha.
  pose proof (read_rows_in_order a rows (Z.to_nat (ListView._top v))
                (Z.to_nat (ListView._bottom v - ListView._top v)) Hp Hf
                ltac:(lia)) as Hr.
  rewrite !Z2Nat.id in Hr by lia. cbv zeta in Hr.
  destruct (ListView.read_rows a _) as [r a'].
  cbn [fst snd] in *. destruct Hr as (H1 & H2 & H3 & H4 & H5).
  split; [done|]. exists a'. do 4 (split; [done|]). lia.
Qed.

End InOrder.

Lemma draw_reads_whole_window_witness :
  ListView._adapter SampleX.view_tail
  = Some (Sample.adapter_of Sample.mailbox41)
  /\ Spec.reads_prefix (Sample.adapter_of Sample.mailbox41)
                       (Sample.rows_of Sample.mailbox41)
  /\ length (MailboxAdapter._data (Sample.adapter_of Sample.mailbox41))
     = 30%nat
  /\ (ListView.draw SampleX.view_tail).1 = Ok tt
  /\ exists a', ListView._adapter (ListView.draw SampleX.view_tail).2 = Some a'
                /\ 41 <= Z.of_nat (length (MailboxAdapter._data a')).
Proof.
  assert (Hp : Spec.reads_prefix (Sample.adapter_of Sample.mailbox41)
                                 (Sample.rows_of Sample.mailbox41))
    by (split; vm_compute; reflexivity).
  split; [reflexivity|]. split; [exact Hp|]. split; [reflexivity|].
  destruct (draw_reads_whole_window SampleX.view_tail
              (Sample.adapter_of Sample.mailbox41)
              (Sample.rows_of Sample.mailbox41) eq_refl Hp eq_refl)
    as (Hr & a' & Ha' & _ & _ & _ & Hn);
    [vm_compute; split; congruence | vm_compute; congruence |].
  split; [exact Hr|]. exists a'. split; [exact Ha'|].
  vm_compute in Hn. vm_compute. exact Hn.
Defined.

(** ** [ListView]: the cursor *)

Section Cursor.

Import ListView Spec.
Context {A : Type} `{Adapter A}.

(** What [_move] can do: nothing, or set the cursor to a row of the list
    and slide the window. *)
Lemma move_result (v v' : t A) (a : A) (y : Z) :
  _adapter v = Some a -> _move v y = Ok v' ->
  (v' = v \/ (0 <= y < adapter_len a /\ _pos v' = y))
  /\ _adapter v' = _adapter v /\ _maxy v' = _maxy v /\ _x v' = _x v.
Proof.
  intros Ha. unfold _move, len_adapter. rewrite Ha. cbn [bind].
  destruct (Z.eqb_spec y (_pos v)); [intros [= <-]; auto|].
  destruct (Z.leb_spec 0 y); [|intros [= <-]; auto].
  destruct (Z.ltb_spec y (adapter_len a)); [|intros [= <-]; auto].
  intros [= <-]. split; [right; split; [lia|]|];
    by destruct (y <? _top v), (_bottom v <? y).
Qed.

Lemma move_to_marked_result (v v' : t A) (a : A) (ys : list Z) :
  _adapter v = Some a -> move_to_marked v ys = Ok v' ->
  (v' = v \/ (0 <= _pos v' < adapter_len a))
  /\ _adapter v' = _adapter v /\ _maxy v' = _maxy v /\ _x v' = _x v.
Proof.
  intros Ha Hm. unfold move_to_marked in Hm.
  apply bind_ok in Hm as ([y|] & _ & Hm).
  - destruct (move_result v v' a y Ha Hm) as ([-> | [Hy Hp]] & Hrest);
      [auto|]. split; [right; lia | done].
  - inversion Hm. auto.
Qed.

Ltac bool_to_prop :=
  repeat match goal with
         | E : (_ <? _) = true |- _ => apply Z.ltb_lt in E
         | E : (_ <? _) = false |- _ => apply Z.ltb_ge in E
         | E : (_ <=? _) = true |- _ => apply Z.leb_le in E
         | E : (_ <=? _) = false |- _ => apply Z.leb_gt in E
         end.

(** X11. On a list that is not empty, shown in a window of height 1 or
    more, no key takes the cursor off the list: whatever the key code,
    [0 <= pos < len(adapter)] still holds after [onKey], and so it does
    after [_move] to any row. The adapter and the height are left as they
    are. *)
Theorem cursor_stays_in_list (v v' : t A) (a : A) (ch : Z) (handled : bool) :
  _adapter v = Some a ->
  1 <= _maxy v ->
  0 <= _pos v < adapter_len a ->
  onKey v ch = Ok (handled, v') ->
  0 <= _pos v' < adapter_len a
  /\ _adapter v' = Some a /\ _maxy v' = _maxy v
  /\ (forall y v'', _move v' y = Ok v'' ->
        0 <= _pos v'' < adapter_len a).
Proof.
  intros Ha Hm Hp Hk.
  assert (Hmain : 0 <= _pos v' < adapter_len a
                  /\ _adapter v' = Some a /\ _maxy v' = _maxy v).
  { unfold onKey in Hk. rewrite Ha in Hk.
    repeat match type of Hk with
           | (if ?c then _ else _) = _ =>
               let E := fresh "E" in destruct c eqn:E
           | context [if ?c then _ else _] =>
               let E := fresh "E" in
               destruct c eqn:E;
               cbn [_pos _top _bottom _maxy _adapter _x
                    set_pos set_top set_bottom set_x] in Hk, E
           end;
      try (inversion Hk; subst;
           cbn [_pos _top _bottom _maxy _adapter _x
                set_pos set_top set_bottom set_x];
           bool_to_prop; repeat split; solve [done | lia]);
      apply bind_ok in Hk as (v1 & Hmv & Hk); inversion Hk; subst;
      destruct (move_to_marked_result v v' a _ Ha Hmv)
        as ([-> | Hin] & Ha' & Hm' & _);
      repeat split; solve [done | lia | congruence]. }
  destruct Hmain as (Hp' & Ha' & Hm'). do 3 (split; [done|]).
  intros y v'' Hmv.
  destruct (move_result v' v'' a y Ha' Hmv) as ([-> | [Hy Hpos]] & _); lia.
Qed.

(** X12. [_move(y)] to a row of the list other than the row just below
    the window sets the cursor to [y] and leaves a window that shows it:
    the viewport invariant holds afterwards. *)
Theorem move_shows_target (v : t A) (a : A) (y : Z) :
  _adapter v = Some a ->
  1 <= _maxy v ->
  viewport_ok v ->
  0 <= y < adapter_len a ->
  y <> _bottom v ->
  exists v', _move v y = Ok v' /\ _pos v' = y /\ viewport_ok v'
             /\ _maxy v' = _maxy v.
Proof.
  intros Ha Hm (H0 & H1 & H2 & H3) Hy Hb.
  unfold _move, len_adapter. rewrite Ha. cbn [bind].
  destruct (Z.eqb_spec y (_pos v)) as [->|Hne].
  { exists v. by repeat split. }
  destruct (Z.leb_spec 0 y); [|lia].
  destruct (Z.ltb_spec y (adapter_len a)); [|lia].
  eexists. split; [reflexivity|]. unfold viewport_ok.
  destruct (Z.ltb_spec y (_top v)); [|destruct (Z.ltb_spec (_bottom v) y)];
    cbn [_pos _top _bottom _maxy set_pos set_top set_bottom];
    repeat split; lia.
Qed.

(** X13. The horizontal offset never becomes negative, whatever the key;
    the keys for left and right change nothing but the offset, by one
    column, left stopping at column 0. *)
Theorem horizontal_offset (v v' : t A) (a : A) (ch : Z) (handled : bool) :
  _adapter v = Some a ->
  0 <= _x v ->
  onKey v ch = Ok (handled, v') ->
  0 <= _x v'
  /\ (ch ∈ [KEY_LEFT; ord "h"] ->
      v' = if 0 <? _x v then set_x v (_x v - 1) else v)
  /\ (ch ∈ [KEY_RIGHT; ord "l"] -> v' = set_x v (_x v + 1)).
Proof.
  intros Ha Hx Hk. split; [|split].
  - unfold onKey in Hk. rewrite Ha in Hk.
    repeat match type of Hk with
           | (if ?c then _ else _) = _ =>
               let E := fresh "E" in destruct c eqn:E
           | context [if ?c then _ else _] =>
               let E := fresh "E" in
               destruct c eqn:E;
               cbn [_pos _top _bottom _maxy _adapter _x
                    set_pos set_top set_bottom set_x] in Hk, E
           end;
      try (inversion Hk; subst;
           cbn [_pos _top _bottom _maxy _adapter _x
                set_pos set_top set_bottom set_x];
           bool_to_prop; lia);
      apply bind_ok in Hk as (v1 & Hmv & Hk); inversion Hk; subst;
      destruct (move_to_marked_result v v' a _ Ha Hmv) as (_ & _ & _ & Hx');
      lia.
  - intros Hch. unfold onKey in Hk. rewrite Ha in Hk.
    repeat (apply elem_of_cons in Hch as [-> | Hch]);
      [ .. | by apply elem_of_nil in Hch ];
      vm_compute (key_in _ _ _) in Hk;
      repeat match type of Hk with
             | context [?x =? KEY_PPAGE] =>
                 let b := eval vm_compute in (x =? KEY_PPAGE) in
                 change (x =? KEY_PPAGE) with b in Hk
             | context [?x =? KEY_NPAGE] =>
                 let b := eval vm_compute in (x =? KEY_NPAGE) in
                 change (x =? KEY_NPAGE) with b in Hk
             end;
      cbv iota in Hk; destruct (0 <? _x v); by inversion Hk.
  - intros Hch. unfold onKey in Hk. rewrite Ha in Hk.
    repeat (apply elem_of_cons in Hch as [-> | Hch]);
      [ .. | by apply elem_of_nil in Hch ];
      vm_compute (key_in _ _ _) in Hk;
      repeat match type of Hk with
             | context [?x =? KEY_PPAGE] =>
                 let b := eval vm_compute in (x =? KEY_PPAGE) in
                 change (x =? KEY_PPAGE) with b in Hk
             | context [?x =? KEY_NPAGE] =>
                 let b := eval vm_compute in (x =? KEY_NPAGE) in
                 change (x =? KEY_NPAGE) with b in Hk
             end;
      cbv iota in Hk; by inversion Hk.
Qed.

End Cursor.

Lemma cursor_stays_in_list_witness :
  ListView._adapter Sample.view3 = Some (BaseAdapter.__init__ Sample.rows3)
  /\ 1 <= ListView._maxy Sample.view3
  /\ 0 <= ListView._pos Sample.view3
       < adapter_len (BaseAdapter.__init__ Sample.rows3)
  /\ ListView.onKey Sample.view3 KEY_NPAGE
     = Ok (true, Sample.after Sample.view3
                   (ListView.onKey Sample.view3 KEY_NPAGE))
  /\ 0 <= ListView._pos
            (Sample.after Sample.view3 (ListView.onKey Sample.view3 KEY_NPAGE))
       < 3.
Proof.
  assert (Hp : 0 <= ListView._pos Sample.view3
                 < adapter_len (BaseAdapter.__init__ Sample.rows3))
    by (vm_compute; split; congruence).
  assert (Hm : 1 <= ListView._maxy Sample.view3) by (vm_compute; congruence).
  split; [reflexivity|]. split; [exact Hm|]. split; [exact Hp|].
  split; [reflexivity|].
  exact (proj1 (cursor_stays_in_list Sample.view3 _
                  (BaseAdapter.__init__ Sample.rows3) KEY_NPAGE true
                  eq_refl Hm Hp eq_refl)).
Defined.

Lemma move_shows_target_witness :
  ListView._adapter Sample.view20
  = Some (BaseAdapter.__init__ (repeat "row" 20))
  /\ Spec.viewport_ok Sample.view20
  /\ exists v', ListView._move Sample.view20 12 = Ok v'
                /\ ListView._pos v' = 12 /\ Spec.viewport_ok v'.
Proof.
  assert (Hv : Spec.viewport_ok Sample.view20)
    by (unfold Spec.viewport_ok; vm_compute; repeat split; congruence).
  split; [reflexivity|]. split; [exact Hv|].
  destruct (move_shows_target Sample.view20
              (BaseAdapter.__init__ (repeat "row" 20)) 12 eq_refl)
    as (v' & Hmv & Hp & Hok & _);
    [vm_compute; congruence | exact Hv | vm_compute; split; congruence
    | vm_compute; congruence |].
  exists v'. auto.
Defined.

Lemma horizontal_offset_witness :
  ListView._adapter Sample.view3 = Some (BaseAdapter.__init__ Sample.rows3)
  /\ 0 <= ListView._x Sample.view3
  /\ ListView.onKey Sample.view3 KEY_LEFT = Ok (true, Sample.view3)
  /\ 0 <= ListView._x Sample.view3.
Proof.
  assert (Hx : 0 <= ListView._x Sample.view3) by (vm_compute; congruence).
  split; [reflexivity|]. split; [exact Hx|]. split; [reflexivity|].
  exact (proj1 (horizontal_offset Sample.view3 Sample.view3
                  (BaseAdapter.__init__ Sample.rows3) KEY_LEFT true
                  eq_refl Hx eq_refl)).
Defined.

(** A page down on a list of 20 rows in a window of height 5. *)
Lemma paging_keeps_viewport_witness :
  ListView._adapter Sample.view20
  = Some (BaseAdapter.__init__ (repeat "row" 20))
  /\ 1 <= ListView._maxy Sample.view20
       <= adapter_len (BaseAdapter.__init__ (repeat "row" 20))
  /\ Spec.viewport_ok Sample.view20
  /\ ListView.onKey Sample.view20 KEY_NPAGE
     = Ok (true, Sample.after Sample.view20
                   (ListView.onKey Sample.view20 KEY_NPAGE))
  /\ Spec.viewport_ok
       (Sample.after Sample.view20 (ListView.onKey Sample.view20 KEY_NPAGE)).
Proof.
  assert (Hv : Spec.viewport_ok Sample.view20)
    by (unfold Spec.viewport_ok; vm_compute; repeat split; congruence).
  assert (Hm : 1 <= ListView._maxy Sample.view20
                 <= adapter_len (BaseAdapter.__init__ (repeat "row" 20)))
    by (vm_compute; split; congruence).
  split; [reflexivity|]. split; [exact Hm|]. split; [exact Hv|].
  split; [reflexivity|].
  refine (proj1 (paging_keeps_viewport Sample.view20 _
                   (BaseAdapter.__init__ (repeat "row" 20)) KEY_NPAGE true
                   eq_refl Hm Hv _ eq_refl)).
  do 5 apply list_elem_of_further. apply list_elem_of_here.
Defined.


Section PrevMatch.

Import ListView Spec.
Context {A : Type} `{Adapter A}.


End PrevMatch.


(** ** The stack of activities: edges and errors *)

Section StackEdges.

Import Application SpecX.

Context {Bundle : Type}.
Variable raises : list (event Bundle) -> call Bundle -> option exn.
Variable destroyed : list (event Bundle) -> activity -> option Bundle.

Lemma invoke_stack (self : t Bundle) (c : call Bundle) :
  _stack (invoke raises self c).2 = _stack self.
Proof. by rewrite invoke_snd. Qed.

Lemma start_stack (self : t Bundle) (a : activity)
    (bundle : option Bundle) :
  _stack (_startActivity raises self a bundle).2 = _stack self ++ [a].
Proof.
  unfold _startActivity.
  set (s1 := match top self with
             | Ok p => (invoke raises self (onPause p)).2
             | Raise _ => self
             end).
  assert (H1 : _stack s1 = _stack self).
  { subst s1. destruct (top self); [apply invoke_stack | done]. }
  set (s2 := mk (_stack s1 ++ [a]) (trace s1)).
  assert (H2 : _stack s2 = _stack self ++ [a]) by (by subst s2; rewrite H1).
  pose proof (invoke_stack s2 (onCreate a bundle)) as Hc.
  destruct (invoke raises s2 (onCreate a bundle)) as [[[]|e] s3];
    cbn [snd] in *; [|congruence].
  pose proof (invoke_stack s3 (onResume a bundle)) as Hr.
  destruct (invoke raises s3 (onResume a bundle)) as [[[]|e] s4];
    cbn [snd] in *; [|congruence].
  rewrite invoke_stack. congruence.
Qed.

Lemma destroy_body_stack (self : t Bundle) (named : option activity) :
  _stack (destroy_body raises destroyed self named).2 = _stack self
  \/ _stack (destroy_body raises destroyed self named).2
     = removelast (_stack self).
Proof.
  unfold destroy_body. destruct (top self) as [last|e]; [|by left].
  case_decide; [by left|]. right.
  set (s1 := mk (removelast (_stack self)) (trace self)).
  assert (H1 : _stack s1 = removelast (_stack self)) by done.
  pose proof (invoke_stack s1 (onPause last)) as Hp.
  destruct (invoke raises s1 (onPause last)) as [[[]|e] s2];
    cbn [snd] in *; [|congruence].
  pose proof (invoke_stack s2 (onDestroy last)) as Hd.
  destruct (invoke raises s2 (onDestroy last)) as [[[]|e] s3];
    cbn [snd] in *; [|congruence].
  destruct (top s3) as [below|e]; [|cbn [snd]; congruence].
  unfold _resumeActivity.
  pose proof (invoke_stack s3 (onResume below (destroyed (trace s2) last)))
    as Hr.
  destruct (invoke raises s3 _) as [[[]|e] s4]; cbn [snd] in *;
    [|congruence].
  rewrite invoke_stack. congruence.
Qed.

(** X17. [_startActivity] always leaves the new activity on top of the
    stack it found, also when one of the callbacks raises;
    [_destroyActivity] leaves the stack as it was or without its last
    activity, whatever the callbacks do. *)
Theorem stack_changes_by_one (self : t Bundle) (a : activity)
    (bundle : option Bundle) (named : option activity) :
  _stack (_startActivity raises self a bundle).2 = _stack self ++ [a]
  /\ (_stack (_destroyActivity raises destroyed self named).2 = _stack self
      \/ _stack (_destroyActivity raises destroyed self named).2
         = removelast (_stack self)).
Proof.
  split; [apply start_stack|].
  pose proof (destroy_body_stack self named) as Hb.
  unfold _destroyActivity.
  destruct (destroy_body raises destroyed self named) as [[[]|[]] s];
    exact Hb.
Qed.

(** X18. On the empty stack, [_startActivity] calls no [onPause]: the
    activity becomes the stack and its [onCreate], [onResume] and [draw]
    are called in this order. The three callbacks are taken to return. *)
Theorem start_on_empty_stack (a : activity) (bundle : option Bundle)
    (tr : list (event Bundle)) :
  let e1 := (onCreate a bundle, [a]) in
  let e2 := (onResume a bundle, [a]) in
  let e3 := (draw a, [a]) in
  raises tr (onCreate a bundle) = None ->
  raises (tr ++ [e1]) (onResume a bundle) = None ->
  raises (tr ++ [e1; e2]) (draw a) = None ->
  _startActivity raises (mk [] tr) a bundle
  = (Ok tt, mk [a] (tr ++ [e1; e2; e3])).
Proof.
  intros e1 e2 e3 Hc Hr Hd. unfold _startActivity. rewrite top_nil.
  cbn [_stack trace app].
  rewrite invoke_returns by done. cbn [_stack trace]. fold e1.
  rewrite invoke_returns by done. cbn [_stack trace]. fold e2.
  rewrite <- app_assoc. cbn [app].
  rewrite invoke_returns by done.
  cbn [_stack trace]. fold e3. by rewrite <- !app_assoc.
Qed.

(** X19. Destroying the only activity of the stack calls its [onPause]
    and [onDestroy], leaves the stack empty and returns [False]: nothing
    is resumed. On the empty stack [_destroyActivity] returns [False]
    and calls nothing. *)
Theorem destroy_last_activity (a : activity) (tr : list (event Bundle))
    (named : option activity) :
  let f1 := (onPause a, []) in
  let f2 := (onDestroy a, []) in
  raises tr (onPause a) = None ->
  raises (tr ++ [f1]) (onDestroy a) = None ->
  named = None \/ named = Some a ->
  _destroyActivity raises destroyed (mk [a] tr) named
  = (false, mk [] (tr ++ [f1; f2]))
  /\ _destroyActivity raises destroyed (mk [] tr) named = (false, mk [] tr).
Proof.
  intros f1 f2 Hp Hd Hn. split.
  - unfold _destroyActivity, destroy_body.
    change [a] with ([] ++ [a]). rewrite top_snoc.
    assert (Hdef : default a named = a) by (by destruct Hn as [-> | ->]).
    rewrite Hdef. case_decide; [done|].
    cbn [_stack trace app removelast].
    rewrite invoke_returns by done. cbn [_stack trace]. fold f1.
    rewrite invoke_returns by done. cbn [_stack trace]. fold f2.
    rewrite top_nil. by rewrite <- app_assoc.
  - unfold _destroyActivity, destroy_body. by rewrite top_nil.
Qed.

(** X20. An exception raised by the [onPause] of the activity that is
    destroyed ends the call at once: the activity is off the stack,
    [onDestroy] is not called and the activity below is not resumed. The
    call returns [True], except for an [IndexError], for which it returns
    [False] as if the stack were exhausted. *)
Theorem destroy_swallows_exception (stack : list activity) (last : activity)
    (tr : list (event Bundle)) (e : exn) :
  raises tr (onPause last) = Some e ->
  _destroyActivity raises destroyed (mk (stack ++ [last]) tr) None
  = (if decide (e = IndexError) then false else true,
     mk stack (tr ++ [(onPause last, stack)])).
Proof.
  intros Hp. unfold _destroyActivity, destroy_body.
  rewrite top_snoc. cbn [default]. case_decide; [done|].
  cbn [_stack trace]. rewrite removelast_last.
  unfold invoke. cbn [_stack trace]. rewrite Hp.
  by destruct e.
Qed.

Hypothesis returns : forall tr c, raises tr c = None.

Lemma start_all_stack (self : t Bundle) (acts : list activity) :
  _stack (start_all raises self acts) = _stack self ++ acts.
Proof.
  revert self. induction acts as [|a acts IH]; intros self; simpl.
  - by rewrite app_nil_r.
  - rewrite IH.
    rewrite start_stack.
    by rewrite <- app_assoc.
Qed.

Lemma destroy_returning (stack : list activity) (last : activity)
    (tr : list (event Bundle)) :
  exists tr',
    _destroyActivity raises destroyed (mk (stack ++ [last]) tr) None
    = (match stack with [] => false | _ => true end, mk stack tr').
Proof.
  unfold _destroyActivity, destroy_body.
  rewrite top_snoc. cbn [default]. case_decide; [done|].
  cbn [_stack trace]. rewrite removelast_last.
  rewrite !invoke_returns by apply returns. cbn [_stack trace].
  destruct (list_eq_nil_dec stack) as [->|Hne].
  - rewrite top_nil. by eexists.
  - destruct (exists_last Hne) as (s & below & ->).
    rewrite top_snoc. unfold _resumeActivity.
    rewrite !invoke_returns by apply returns. cbn [_stack trace].
    destruct (s ++ [below]) eqn:Hs; [by destruct s|]. by eexists.
Qed.

Lemma destroy_times_all (stack : list activity) (tr : list (event Bundle)) :
  exists tr',
    destroy_times raises destroyed (mk stack tr) (length stack)
    = (match stack with
       | [] => []
       | _ :: rest => repeat true (length rest) ++ [false]
       end, mk [] tr').
Proof.
  revert tr. induction stack as [|last stack IH] using rev_ind; intros tr.
  - by eexists.
  - rewrite length_app, Nat.add_comm. cbn [length Nat.add destroy_times].
    destruct (destroy_returning stack last tr) as (tr1 & ->).
    destruct (IH tr1) as (tr2 & ->). exists tr2. f_equal.
    destruct stack as [|x rest]; [done|].
    cbn [app length]. rewrite length_app. cbn [length].
    rewrite Nat.add_comm. cbn [Nat.add repeat app]. done.
Qed.

(** X21. When no callback raises, starting [n] activities (one at least)
    on the empty stack and then destroying the top [n] times empties the
    stack; the first [n-1] calls return [True] and the last one returns
    [False]. *)
Theorem start_all_destroy_all (acts : list activity) :
  acts <> [] ->
  let self := start_all raises (mk [] []) acts in
  _stack self = acts
  /\ (destroy_times raises destroyed self (length acts)).1
     = repeat true (length acts - 1) ++ [false]
  /\ _stack (destroy_times raises destroyed self (length acts)).2 = [].
Proof.
  intros Hne self.
  assert (Hs : _stack self = acts) by (subst self; by rewrite start_all_stack).
  split; [done|].
  destruct self as [stack tr]. cbn [_stack] in Hs. subst stack.
  destruct (destroy_times_all acts tr) as (tr' & ->). cbn [fst snd _stack].
  split; [|done]. destruct acts as [|a rest]; [done|].
  by replace (length (a :: rest) - 1)%nat with (length rest)
    by (cbn [length]; lia).
Qed.

End StackEdges.


(** An application whose callbacks all return and hand back no bundle. *)
Lemma start_on_empty_stack_witness :
  Application._startActivity (Bundle := nat) (fun _ _ => None)
    (Application.mk [] []) 4%nat (Some 3%nat)
  = (Ok tt,
     Application.mk [4%nat]
       [(Application.onCreate 4%nat (Some 3%nat), [4%nat]);
        (Application.onResume 4%nat (Some 3%nat), [4%nat]);
        (Application.draw 4%nat, [4%nat])]).
Proof.
  exact (start_on_empty_stack (Bundle := nat) (fun _ _ => None)
           4%nat (Some 3%nat) [] eq_refl eq_refl eq_refl).
Defined.

Lemma destroy_last_activity_witness :
  Application._destroyActivity (Bundle := nat) (fun _ _ => None)
    (fun _ _ => Some 7%nat) (Application.mk [4%nat] []) (Some 4%nat)
  = (false,
     Application.mk []
       [(Application.onPause 4%nat, []); (Application.onDestroy 4%nat, [])])
  /\ Application._destroyActivity (Bundle := nat) (fun _ _ => None)
       (fun _ _ => Some 7%nat) (Application.mk [] []) (Some 4%nat)
     = (false, Application.mk [] []).
Proof.
  exact (destroy_last_activity (Bundle := nat) (fun _ _ => None)
           (fun _ _ => Some 7%nat) 4%nat [] (Some 4%nat)
           eq_refl eq_refl (or_intror eq_refl)).
Defined.

(** The [onPause] of activity [1] raises an exception that is not an
    [IndexError]: the call returns [True] and activity [0] is not resumed. *)
Lemma destroy_swallows_exception_witness :
  let raises := fun (_ : list (Application.event nat)) c =>
                  match c with
                  | Application.onPause 1%nat => Some (OtherError 1)
                  | _ => None
                  end in
  Application._destroyActivity raises (fun _ _ => None)
    (Application.mk [0; 1]%nat []) None
  = (true, Application.mk [0%nat] [(Application.onPause 1%nat, [0%nat])]).
Proof.
  intros raises.
  exact (destroy_swallows_exception raises (fun _ _ => None)
           [0%nat] 1%nat [] (OtherError 1) eq_refl).
Defined.

Lemma start_all_destroy_all_witness :
  let raises := fun (_ : list (Application.event nat))
                    (_ : Application.call nat) => @None exn in
  let destroyed := fun (_ : list (Application.event nat))
                       (_ : Application.activity) => @None nat in
  let self := SpecX.start_all raises (Application.mk [] []) [5; 6; 7]%nat in
  Application._stack self = [5; 6; 7]%nat
  /\ (SpecX.destroy_times raises destroyed self 3).1 = [true; true; false]
  /\ Application._stack (SpecX.destroy_times raises destroyed self 3).2 = [].
Proof.
  intros raises destroyed.
  refine (start_all_destroy_all raises destroyed (fun _ _ => eq_refl)
            [5; 6; 7]%nat _).
  discriminate.
Defined.

(** ** [MessageAdapter]: the rows of the attachments *)

Section AttachmentRows.

Import MessageAdapter.





End AttachmentRows.


(** ** [ThunderReader]: the default mailbox *)

Section Inbox.

Import Str ThunderReader SpecX.

Lemma substring_all (s : string) :
  String.substring 0 (String.length s) s = s.
Proof. induction s as [|c s IH]; simpl; [done | by rewrite IH]. Qed.

Lemma substring_append (before s : string) (n : nat) :
  String.substring (String.length before) n (before ++ s)
  = String.substring 0 n s.
Proof. induction before as [|c before IH]; simpl; done. Qed.

Lemma substring_split (n : nat) (s : string) :
  (n <= String.length s)%nat ->
  s = (String.substring 0 n s
       ++ String.substring n (String.length s - n) s)%string.
Proof.
  revert n. induction s as [|c s IH]; intros [|n] Hn; simpl in *;
    try done; try lia.
  - by rewrite substring_all.
  - change (String c s
            = String c (String.substring 0 n s
                        ++ String.substring n (String.length s - n) s)).
    f_equal. apply IH. lia.
Qed.

Lemma endswith_spec (suffix s : string) :
  endswith suffix s = true <-> ends_with suffix s.
Proof.
  unfold endswith, ends_with, Py.slice_from. split.
  - intros (Hl%Nat.leb_le & He%String.eqb_eq)%andb_prop.
    exists (String.substring 0 (String.length s - String.length suffix) s).
    assert (Hn : (String.length s - String.length suffix
                  <= String.length s)%nat) by lia.
    apply substring_split in Hn. by rewrite He in Hn.
  - intros (before & ->). rewrite length_append.
    apply andb_true_intro. split; [apply Nat.leb_le; lia|].
    apply String.eqb_eq.
    replace (String.length before + String.length suffix
             - String.length suffix)%nat
      with (String.length before) by lia.
    replace (String.length before + String.length suffix
             - String.length before)%nat
      with (String.length suffix) by lia.
    by rewrite substring_append, substring_all.
Qed.

Lemma endswith_false (suffix s : string) :
  endswith suffix s = false <-> ~ ends_with suffix s.
Proof.
  rewrite <- endswith_spec. by destruct (endswith suffix s).
Qed.

Lemma filter_first {A} (f : A -> bool) (xs : list A) :
  match List.filter f xs with
  | [] => forall x, x ∈ xs -> f x = false
  | p :: _ =>
      exists i : nat,
        xs !! i = Some p /\ f p = true
        /\ forall (j : nat) q, (j < i)%nat -> xs !! j = Some q -> f q = false
  end.
Proof.
  induction xs as [|x xs IH]; simpl.
  - intros x Hx. by apply elem_of_nil in Hx.
  - destruct (f x) eqn:Hf.
    + exists 0%nat. split; [done|]. split; [done|]. intros j q Hj. lia.
    + destruct (List.filter f xs) as [|p ps].
      * intros y [->|Hy]%elem_of_cons; [done | by apply IH].
      * destruct IH as (i & Hi & Hp & Hbefore). exists (S i).
        split; [done|]. split; [done|].
        intros [|j] q Hj Hq; simpl in Hq; [by simplify_eq|].
        apply (Hbefore j); [lia | done].
Qed.

(** X23. [_get_inbox_path] returns [None] only when there is no mailbox.
    Otherwise it returns one of the paths of the reader: the first one
    that ends with [INBOX] when there is one, and the very first path
    when no path ends with [INBOX]. *)
Theorem inbox_path_is_first_inbox (self : t) :
  match _get_inbox_path self with
  | None => _mbpaths self = []
  | Some p =>
      exists i : nat,
        _mbpaths self !! i = Some p
        /\ (forall (j : nat) q,
               (j < i)%nat -> _mbpaths self !! j = Some q ->
               ~ ends_with "INBOX" q)
        /\ (ends_with "INBOX" p
            \/ i = 0%nat
               /\ forall q, q ∈ _mbpaths self -> ~ ends_with "INBOX" q)
  end.
Proof.
  unfold _get_inbox_path.
  pose proof (filter_first (endswith "INBOX") (_mbpaths self)) as Hf.
  destruct (List.filter (endswith "INBOX") (_mbpaths self)) as [|p ps].
  - destruct (_mbpaths self) as [|p0 ps0] eqn:Hm; [done|].
    exists 0%nat. split; [done|]. split; [intros j q Hj; lia|].
    right. split; [done|]. intros q Hq. apply endswith_false. by apply Hf.
  - destruct Hf as (i & Hi & Hp & Hbefore). exists i.
    split; [done|]. split.
    + intros j q Hj Hq. apply endswith_false. by apply (Hbefore j).
    + left. by apply endswith_spec.
Qed.

End Inbox.

(** ** [BlueHTMLParser]: links *)

Section Links.

Import Py BlueHTMLParser SpecX.

Lemma append_assoc (s1 s2 s3 : string) :
  (s1 ++ (s2 ++ s3) = (s1 ++ s2) ++ s3)%string.
Proof.
  induction s1 as [|c s1 IH]; [done|].
  change (String c (s1 ++ (s2 ++ s3)) = String c ((s1 ++ s2) ++ s3))%string.
  by rewrite IH.
Qed.

Lemma dict_snoc (attrs : list (string * option string))
    (k : string) (v : option string) :
  dict (attrs ++ [(k, v)]) = <[k := v]> (dict attrs).
Proof. unfold dict. by rewrite foldl_app. Qed.

Lemma dict_is_Some (attrs : list (string * option string)) (k : string) :
  is_Some (dict attrs !! k) <-> k ∈ attrs.*1.
Proof.
  induction attrs as [|[k' v] attrs IH] using rev_ind.
  - unfold dict. simpl. rewrite lookup_empty, elem_of_nil.
    split; [by intros [? ?] | done].
  - rewrite dict_snoc, fmap_app, elem_of_app. cbn [fmap list_fmap fst].
    rewrite list_elem_of_singleton.
    destruct (decide (k = k')) as [->|Hne].
    + rewrite lookup_insert_eq. split; [by right | by eexists].
    + rewrite lookup_insert_ne by done. rewrite IH.
      split; [by left | by intros [?|?]].
Qed.

(** Between two handler calls, the attributes of an [a] tag hold an
    [href]. *)
Definition linked (self : t) : Prop :=
  _tag self = Some "a" ->
  forall attrs, _attrs self = Some attrs -> is_Some (attrs !! "href").

Lemma handle_starttag_fields (self : t) (tag : string)
    (attrs : list (string * option string)) :
  _tag (handle_starttag self tag attrs) = Some tag
  /\ _attrs (handle_starttag self tag attrs) = Some (dict attrs).
Proof.
  unfold handle_starttag.
  by destruct (String.eqb tag "br"), (String.eqb tag "p"),
       (String.eqb tag "a").
Qed.

Lemma handle_data_fields (self : t) (data : string) :
  _tag (handle_data self data).2 = _tag self
  /\ _attrs (handle_data self data).2 = _attrs self.
Proof.
  unfold handle_data.
  destruct (String.eqb data crlf); [done|].
  destruct (match _tag self with Some _ => _ | None => _ end); [done|].
  destruct (bool_decide _); [|done].
  destruct (_attrs self) as [attrs|]; [|done].
  by destruct (attrs !! "href").
Qed.

Lemma handle_data_linked (self : t) (data : string) :
  linked self -> (handle_data self data).1 = Ok tt.
Proof.
  intros Hl. unfold handle_data.
  destruct (String.eqb data crlf); [done|].
  destruct (match _tag self with Some _ => _ | None => _ end); [done|].
  destruct (bool_decide (_tag self = Some "a")) eqn:Ha; [|done].
  apply bool_decide_eq_true in Ha.
  destruct (_attrs self) as [attrs|] eqn:Hattrs; [|done].
  by destruct (Hl Ha attrs Hattrs) as [href ->].
Qed.

Lemma handle_linked (self : t) (tok : token) :
  linked self -> has_href tok ->
  (handle self tok).1 = Ok tt /\ linked (handle self tok).2.
Proof.
  intros Hl Hh. destruct tok as [tag attrs|tag|data]; cbn [handle fst snd].
  - split; [done|]. intros Ha attrs' Hattrs.
    destruct (handle_starttag_fields self tag attrs) as [Ht Hd].
    rewrite Ht in Ha. rewrite Hd in Hattrs. simplify_eq.
    apply dict_is_Some. by apply Hh.
  - split; [done|]. by intros _ attrs.
  - split; [by apply handle_data_linked|].
    destruct (handle_data_fields self data) as [Ht Hd].
    unfold linked. by rewrite Ht, Hd.
Qed.

Lemma handle_all_linked (self : t) (toks : list token) :
  linked self -> Forall has_href toks ->
  (handle_all self toks).1 = Ok tt /\ linked (handle_all self toks).2.
Proof.
  revert self. induction toks as [|tok toks IH]; intros self Hl Hh.
  - done.
  - apply Forall_cons in Hh as [Htok Hh].
    destruct (handle_linked self tok Hl Htok) as [Hok Hl'].
    cbn [handle_all].
    destruct (handle self tok) as [[[]|e] self']; [|done].
    by apply IH.
Qed.

Lemma handle_all_app (self : t) (toks toks' : list token) :
  (handle_all self toks).1 = Ok tt ->
  handle_all self (toks ++ toks')
  = handle_all (handle_all self toks).2 toks'.
Proof.
  revert self. induction toks as [|tok toks IH]; intros self Hok; [done|].
  cbn [app handle_all] in *.
  destruct (handle self tok) as [[[]|e] self']; [|done].
  by apply IH.
Qed.

Lemma init_linked : linked __init__.
Proof. by intros ?. Qed.

(** X24. When every [a] start tag of a text has an [href] attribute, no
    handler raises, whatever the tags and the text are. *)
Theorem links_with_href_never_raise (toks : list token) :
  Forall has_href toks ->
  (handle_all __init__ toks).1 = Ok tt.
Proof.
  intros Hh. by apply (handle_all_linked __init__ toks init_linked).
Qed.

(** X25. The first [a] start tag without an [href] attribute that is
    followed by text (other than a lone CR LF) makes the parser raise
    [KeyError], after the text has been appended with its link number. *)
Theorem link_without_href_raises (before after : list token)
    (attrs : list (string * option string)) (data : string) :
  Forall has_href before ->
  "href" ∉ attrs.*1 ->
  data <> crlf ->
  exists self,
    (handle_all __init__ before).1 = Ok tt
    /\ handle_all __init__ (before ++ StartTag "a" attrs :: Data data :: after)
       = (Raise KeyError, self)
    /\ _data self
       = _data (handle_all __init__ before).2
         ++ [(data ++ "["
              ++ str_of_nat (_linkcount (handle_all __init__ before).2 + 1)
              ++ "]")%string].
Proof.
  intros Hh Hattrs Hdata.
  destruct (handle_all_linked __init__ before init_linked Hh) as [Hok _].
  rewrite handle_all_app by done.
  set (p := (handle_all __init__ before).2).
  cbn [handle_all handle].
  change (handle_starttag p "a" attrs)
    with (mk (Some "a") (Some (dict attrs)) (_data p) (_linkcount p + 1)
             (_footnotes p)).
  unfold handle_data. cbn [_tag _attrs _data _linkcount _footnotes].
  destruct (String.eqb_spec data crlf) as [?|_]; [done|].
  rewrite bool_decide_eq_false_2
    by (unfold _ignoretags; rewrite !elem_of_cons, elem_of_nil;
        intros [?|[?|[?|[?|[]]]]]; discriminate).
  rewrite bool_decide_eq_true_2 by done.
  destruct (dict attrs !! "href") as [href|] eqn:Hd.
  - exfalso. apply Hattrs, dict_is_Some. by eexists.
  - by eexists.
Qed.

(** X26. A link [<a href=url>text</a>] adds the text with the number of
    the link to the text of the parser and the line [[n] text: url] to
    its footnotes, [n] being the number of [a] start tags met so far.
    Parsed on its own, the link gives the text, its number, a line break
    and the footnote. *)
Theorem link_gets_footnote (self : t)
    (attrs : list (string * option string)) (text : string)
    (url : option string) :
  text <> crlf ->
  dict attrs !! "href" = Some url ->
  let n := str_of_nat (_linkcount self + 1) in
  handle_all self [StartTag "a" attrs; Data text; EndTag "a"]
  = (Ok tt,
     mk (Some "a") None
        (_data self ++ [(text ++ "[" ++ n ++ "]")%string])
        (_linkcount self + 1)
        (_footnotes self
         ++ [("[" ++ n ++ "] " ++ text ++ ": " ++ format_s url)%string]))
  /\ get_result
       (handle_all __init__ [StartTag "a" attrs; Data text; EndTag "a"]).2
     = (text ++ "[1]" ++ lf ++ "[1] " ++ text ++ ": " ++ format_s url)%string.
Proof.
  intros Htext Hurl n.
  assert (Hrun : forall p : t,
    handle_all p [StartTag "a" attrs; Data text; EndTag "a"]
    = (Ok tt,
       mk (Some "a") None
          (_data p ++ [(text ++ "[" ++ str_of_nat (_linkcount p + 1)
                        ++ "]")%string])
          (_linkcount p + 1)
          (_footnotes p
           ++ [("[" ++ str_of_nat (_linkcount p + 1) ++ "] " ++ text ++ ": "
                ++ format_s url)%string]))).
  { intros p. cbn [handle_all handle].
    change (handle_starttag p "a" attrs)
      with (mk (Some "a") (Some (dict attrs)) (_data p) (_linkcount p + 1)
               (_footnotes p)).
    unfold handle_data. cbn [_tag _attrs _data _linkcount _footnotes].
    destruct (String.eqb_spec text crlf) as [?|_]; [done|].
    rewrite bool_decide_eq_false_2
      by (unfold _ignoretags; rewrite !elem_of_cons, elem_of_nil;
        intros [?|[?|[?|[?|[]]]]]; discriminate).
    rewrite bool_decide_eq_true_2 by done.
    by rewrite Hurl. }
  split; [apply Hrun|].
  rewrite Hrun. unfold get_result.
  cbn [snd _data _footnotes __init__ app join Nat.add].
  change (str_of_nat 1) with "1".
  by rewrite <- append_assoc.
Qed.

End Links.

(** The page of the module's own test has one link, with an [href]. *)
Lemma links_with_href_never_raise_witness :
  (SpecX.handle_all BlueHTMLParser.__init__ SampleX.page).1 = Ok tt.
Proof.
  apply links_with_href_never_raise. unfold SampleX.page.
  repeat first [apply Forall_nil_2 | apply Forall_cons_2];
    try done; intros _; apply list_elem_of_here.
Defined.

(** A named anchor, [<p><a name=top>top], has no [href]. *)
Lemma link_without_href_raises_witness :
  (SpecX.handle_all BlueHTMLParser.__init__
     [SpecX.StartTag "p" []; SpecX.StartTag "a" [("name", Some "top")];
      SpecX.Data "top"]).1
  = Raise KeyError.
Proof.
  assert (H1 : Forall SpecX.has_href [SpecX.StartTag "p" []])
    by (apply Forall_cons_2; [done | apply Forall_nil_2]).
  assert (H2 : "href" ∉ [("name", Some "top")].*1)
    by (intros [?|[]%elem_of_nil]%elem_of_cons; discriminate).
  assert (H3 : "top" <> BlueHTMLParser.crlf) by discriminate.
  destruct (link_without_href_raises [SpecX.StartTag "p" []] []
              [("name", Some "top")] "top" H1 H2 H3)
    as (self & _ & Hrun & _).
  cbn [app] in Hrun. by rewrite Hrun.
Defined.

(** The link of the module's own test. *)
Lemma link_gets_footnote_witness :
  BlueHTMLParser.get_result
    (SpecX.handle_all BlueHTMLParser.__init__
       [SpecX.StartTag "a" [("href", Some "www.test.com")];
        SpecX.Data "test"; SpecX.EndTag "a"]).2
  = ("test[1]" ++ BlueHTMLParser.lf ++ "[1] test: www.test.com")%string.
Proof.
  assert (H1 : "test" <> BlueHTMLParser.crlf) by discriminate.
  assert (H2 : BlueHTMLParser.dict [("href", Some "www.test.com")] !! "href"
               = Some (Some "www.test.com")) by (by vm_compute).
  exact (proj2 (link_gets_footnote BlueHTMLParser.__init__
                  [("href", Some "www.test.com")] "test"
                  (Some "www.test.com") H1 H2)).
Defined.

(** ** [PrefParser]: the lines of [prefs.js] *)

Section Prefs.

Import Py Str PrefParser SpecX.

Abbreviation q := MailboxAdapter.dquote.

Lemma loa_append (a b : string) :
  list_ascii_of_string (a ++ b)
  = list_ascii_of_string a ++ list_ascii_of_string b.
Proof.
  induction a as [|c a IH]; [done|].
  change (c :: list_ascii_of_string (a ++ b)%string
          = c :: (list_ascii_of_string a ++ list_ascii_of_string b)).
  by rewrite IH.
Qed.

Lemma soa_app (l1 l2 : list ascii) :
  string_of_list_ascii (l1 ++ l2)
  = (string_of_list_ascii l1 ++ string_of_list_ascii l2)%string.
Proof.
  induction l1 as [|c l1 IH]; [done|].
  change (String c (string_of_list_ascii (l1 ++ l2))
          = String c (string_of_list_ascii l1 ++ string_of_list_ascii l2)).
  by rewrite IH.
Qed.

Lemma rev_string_snoc (s : string) (c : ascii) :
  rev_string (list_ascii_of_string (s ++ String c ""))
  = String c (rev_string (list_ascii_of_string s)).
Proof.
  unfold rev_string. rewrite loa_append. cbn [list_ascii_of_string].
  by rewrite rev_unit.
Qed.

Lemma rev_string_cons (c : ascii) (s : string) :
  rev_string (list_ascii_of_string
                (String c (rev_string (list_ascii_of_string s))))
  = (s ++ String c "")%string.
Proof.
  unfold rev_string. cbn [list_ascii_of_string].
  rewrite list_ascii_of_string_of_list_ascii. cbn [rev].
  rewrite rev_involutive, soa_app, string_of_list_ascii_of_string.
  done.
Qed.

Lemma rstrip_drop (s : string) (c : ascii) :
  isspace c = true -> rstrip (s ++ String c "") = rstrip s.
Proof.
  intros Hc. unfold rstrip. rewrite rev_string_snoc.
  cbn [lstrip]. by rewrite Hc.
Qed.

Lemma rstrip_keep (s : string) (c : ascii) :
  isspace c = false -> rstrip (s ++ String c "") = (s ++ String c "")%string.
Proof.
  intros Hc. unfold rstrip. rewrite rev_string_snoc.
  cbn [lstrip]. rewrite Hc. apply rev_string_cons.
Qed.

Lemma rstrip_chars_drop (chars s : string) (c : ascii) :
  among chars c = true ->
  rstrip_chars chars (s ++ String c "") = rstrip_chars chars s.
Proof.
  intros Hc. unfold rstrip_chars. rewrite rev_string_snoc.
  cbn [lstrip_chars]. by rewrite Hc.
Qed.

Lemma rstrip_chars_keep (chars s : string) (c : ascii) :
  among chars c = false ->
  rstrip_chars chars (s ++ String c "") = (s ++ String c "")%string.
Proof.
  intros Hc. unfold rstrip_chars. rewrite rev_string_snoc.
  cbn [lstrip_chars]. rewrite Hc. apply rev_string_cons.
Qed.

Lemma string_last (s : string) :
  s = "" \/ exists s0 c, s = (s0 ++ String c "")%string.
Proof.
  induction s as [|c s IH]; [by left|]. right.
  destruct IH as [->|(s0 & d & ->)].
  - by exists "", c.
  - by exists (String c s0), d.
Qed.

Lemma among_quote (c : ascii) :
  among q c = true <-> String c "" = q.
Proof.
  unfold among. cbn [list_ascii_of_string MailboxAdapter.dquote existsb].
  rewrite orb_false_r. rewrite Ascii.eqb_eq.
  split; [by intros -> | by intros [=]].
Qed.

(** Taking the quotes off a quoted text gives the text back, when the
    text itself has no quote at either end. *)
Lemma strip_quoted (s : string) :
  ~ starts_with q s -> ~ ends_with q s ->
  strip_chars q (q ++ s ++ q) = s.
Proof.
  intros Hs He. unfold strip_chars.
  destruct s as [|c s]; [done|].
  assert (Hc : among q c = false).
  { destruct (among q c) eqn:Hc; [|done]. apply among_quote in Hc.
    exfalso. apply Hs. exists s.
    by rewrite <- Hc. }
  change (q ++ String c s ++ q)%string
    with (String (ascii_of_nat 34) (String c (s ++ q))).
  cbn [lstrip_chars].
  replace (among q (ascii_of_nat 34)) with true by done.
  rewrite Hc.
  change (String c (s ++ q)) with (String c s ++ String (ascii_of_nat 34) "")%string.
  rewrite rstrip_chars_drop by done.
  destruct (string_last (String c s)) as [?|(s0 & d & Hd)]; [done|].
  rewrite Hd. apply rstrip_chars_keep.
  destruct (among q d) eqn:Hq; [|done]. apply among_quote in Hq.
  exfalso. apply He. exists s0. by rewrite Hd, Hq.
Qed.

Lemma partition_append (sep : ascii) (a r : string) :
  ~ has_char sep a ->
  partition sep (a ++ String sep r) = (a, String sep "", r).
Proof.
  unfold has_char. induction a as [|c a IH]; intros Ha.
  - change (partition sep (String sep r) = ("", String sep "", r)).
    cbn [partition]. by rewrite Ascii.eqb_refl.
  - change (String c a ++ String sep r)%string
      with (String c (a ++ String sep r)).
    cbn [partition]. cbn [list_ascii_of_string] in Ha.
    destruct (Ascii.eqb_spec c sep) as [->|Hne].
    + exfalso. apply Ha. apply list_elem_of_here.
    + rewrite IH; [done|]. intros Hin. apply Ha.
      by apply list_elem_of_further.
Qed.

Lemma substring_prefix (a b : string) :
  String.substring 0 (String.length a) (a ++ b) = a.
Proof. induction a as [|c a IH]; simpl; [by destruct b | by rewrite IH]. Qed.

Lemma slice_last_suffix (suffix s : string) :
  slice_last (String.length suffix) s = suffix <-> ends_with suffix s.
Proof.
  unfold slice_last, ends_with. split.
  - intros Hs.
    assert (Hl : (String.length suffix <= String.length s)%nat).
    { destruct (Nat.le_gt_cases (String.length suffix) (String.length s))
        as [?|Hlt]; [done|].
      replace (String.length s - String.length suffix)%nat with 0%nat in Hs
        by lia.
      apply (f_equal String.length) in Hs.
      rewrite length_substring_0 in Hs. lia. }
    exists (String.substring 0 (String.length s - String.length suffix) s).
    assert (Hn : (String.length s - String.length suffix
                  <= String.length s)%nat) by lia.
    apply substring_split in Hn.
    replace (String.length s - (String.length s - String.length suffix))%nat
      with (String.length suffix) in Hn by lia.
    by rewrite Hs in Hn.
  - intros (before & ->). rewrite length_append.
    replace (String.length before + String.length suffix
             - String.length suffix)%nat
      with (String.length before) by lia.
    by rewrite substring_append, substring_all.
Qed.

Lemma substring_within (n m : nat) (s r : string) :
  String.length (String.substring n m s) = m ->
  String.substring n m (s ++ r) = String.substring n m s.
Proof.
  revert n m. induction s as [|c s IH]; intros n m Hl.
  - assert (m = 0%nat) as -> by (by destruct n, m).
    cbn [String.append]. clear Hl. revert n.
    induction r as [|c r IHr]; intros [|n]; simpl; try done.
    rewrite IHr. by destruct n.
  - change (String c s ++ r)%string with (String c (s ++ r)).
    destruct n as [|n], m as [|m]; cbn [String.substring] in *; try done.
    + f_equal. apply IH. simpl in Hl. lia.
    + by apply IH.
    + by apply IH.
Qed.

Lemma is_substring_within (p a s b : string) :
  Spec.is_substring p s -> Spec.is_substring p (a ++ s ++ b).
Proof.
  intros [n Hn]. exists (String.length a + n)%nat.
  induction a as [|c a IH].
  - change (String.substring n (String.length p) (s ++ b) = p).
    rewrite substring_within; [done | by rewrite Hn].
  - exact IH.
Qed.

Lemma snoc_inj (s1 s2 : string) (c d : ascii) :
  (s1 ++ String c "" = s2 ++ String d "")%string -> c = d.
Proof.
  intros Heq. apply (f_equal list_ascii_of_string) in Heq.
  rewrite !loa_append in Heq. cbn [list_ascii_of_string] in Heq.
  by apply app_inj_tail in Heq as [_ ->].
Qed.

Ltac regroup := rewrite <- ?append_assoc; reflexivity.

(** What [strip()] and [[10:-2]] leave of the line of a preference. *)
Lemma pref_line_fields (key value : string) :
  slice_but 10 2 (strip (pref_line key value))
  = ((q ++ key ++ q) ++ "," ++ " " ++ q ++ value ++ q)%string.
Proof.
  set (M := ((q ++ key ++ q) ++ "," ++ " " ++ q ++ value ++ q)%string).
  assert (Hs : strip (pref_line key value) = ("user_pref(" ++ M ++ ");")%string).
  { unfold strip.
    change (lstrip (pref_line key value)) with (pref_line key value).
    replace (pref_line key value)
      with ((("user_pref(" ++ M ++ ")") ++ String ";" "")
            ++ String (ascii_of_nat 10) "")%string
      by (unfold pref_line, M; regroup).
    rewrite rstrip_drop by done. rewrite rstrip_keep by done. regroup. }
  rewrite Hs. unfold slice_but. rewrite !length_append.
  replace (String.length "user_pref(" + (String.length M + String.length ");")
           - 2 - 10)%nat
    with (String.length M) by (simpl; lia).
  exact (eq_trans
           (substring_append "user_pref(" (M ++ ");") (String.length M))
           (substring_prefix M ");")).
Qed.

Lemma read_line_pref (self : t) (key value : string) :
  Spec.is_substring "mail.server" key ->
  ends_with "directory" key ->
  ~ has_char "," key ->
  ~ starts_with q key ->
  ~ starts_with q value -> ~ ends_with q value ->
  read_line self (pref_line key value)
  = mk (<[key := value]> (_data self)).
Proof.
  intros Hms Hdir Hcomma Hkq Hvs Hve. unfold read_line.
  replace (startswith "user_pref" (pref_line key value)) with true by done.
  assert (Hc : contains "mail.server" (pref_line key value) = true).
  { apply contains_spec.
    replace (pref_line key value)
      with (("user_pref(" ++ q) ++ key
            ++ (q ++ ", " ++ q ++ value ++ q ++ ");" ++ BlueHTMLParser.lf))%string
      by (unfold pref_line; regroup).
    by apply is_substring_within. }
  rewrite Hc. cbn [negb]. rewrite pref_line_fields.
  change ((q ++ key ++ q) ++ "," ++ " " ++ q ++ value ++ q)%string
    with ((q ++ key ++ q) ++ String "," (" " ++ q ++ value ++ q))%string.
  rewrite partition_append; cycle 1.
  { unfold has_char. rewrite !loa_append.
    cbn [list_ascii_of_string MailboxAdapter.dquote].
    rewrite !elem_of_app, !list_elem_of_singleton.
    intros [?|[?|?]]; [discriminate | by apply Hcomma | discriminate]. }
  cbn [fst snd].
  assert (Hke : ~ ends_with q key).
  { destruct Hdir as (b & ->). intros (b' & Hb').
    replace (b ++ "directory")%string
      with ((b ++ "director") ++ String "y" "")%string in Hb' by regroup.
    apply snoc_inj in Hb'. discriminate. }
  rewrite strip_quoted by done.
  apply (slice_last_suffix "directory") in Hdir.
  change (String.length "directory") with 9%nat in Hdir.
  rewrite Hdir. cbn [negb String.eqb].
  replace ("directory" =? "directory")%string with true by done.
  cbn [negb].
  change (lstrip (" " ++ q ++ value ++ q))
    with (q ++ value ++ q)%string.
  by rewrite strip_quoted.
Qed.

Lemma read_line_directories (self : t) (line : string) :
  map_Forall (fun key _ => ends_with "directory" key) (_data self) ->
  map_Forall (fun key _ => ends_with "directory" key)
    (_data (read_line self line)).
Proof.
  intros Hself. unfold read_line.
  destruct (negb (startswith "user_pref" line)); [done|].
  destruct (negb (contains "mail.server" line)); [done|].
  destruct (String.eqb_spec
              (slice_last 9 (strip_chars q
                 (partition "," (slice_but 10 2 (strip line))).1.1))
              "directory") as [Hd|_]; [|done].
  cbn [negb _data]. apply map_Forall_insert_2; [|done].
  by apply (slice_last_suffix "directory").
Qed.

(** X27. Reading the line [user_pref(key, value);] of a preference,
    with key and value in double quotes, after the other lines of a
    file records the value under the key, in place of an earlier value.
    The key is one of a mail directory: it contains [mail.server], ends
    with [directory] and has no comma; neither the key nor the value
    starts or ends with a double quote. *)
Theorem read_directory_line (self : t) (fp : list string)
    (key value : string) :
  Spec.is_substring "mail.server" key ->
  ends_with "directory" key ->
  ~ has_char "," key ->
  ~ starts_with q key ->
  ~ starts_with q value -> ~ ends_with q value ->
  _read self (fp ++ [pref_line key value])
  = mk (<[key := value]> (_data (_read self fp))).
Proof.
  intros Hms Hdir Hcomma Hkq Hvs Hve. unfold _read.
  rewrite foldl_app. cbn [foldl]. by apply read_line_pref.
Qed.

(** X28. Whatever the lines of the file are, [_read] keeps directory
    preferences only: every key it has recorded ends with [directory]. *)
Theorem read_keeps_directories_only (fp : list string) :
  map_Forall (fun key _ => ends_with "directory" key)
    (_data (_read __init__ fp)).
Proof.
  unfold _read.
  assert (Hinit : map_Forall (fun key (_ : string) => ends_with "directory" key)
                    (_data __init__)) by apply map_Forall_empty.
  revert Hinit. generalize __init__.
  induction fp as [|line fp IH]; intros self Hself; [done|].
  cbn [foldl]. by apply IH, read_line_directories.
Qed.

End Prefs.

(** A file that sets the directory of the local folders twice: the
    second value is the one recorded. *)
Lemma read_directory_line_witness :
  PrefParser._data
    (PrefParser._read PrefParser.__init__
       [SpecX.pref_line SampleX.dir_key "/old";
        SpecX.pref_line SampleX.dir_key SampleX.dir_value])
  !! SampleX.dir_key
  = Some SampleX.dir_value.
Proof.
  assert (H1 : Spec.is_substring "mail.server" SampleX.dir_key)
    by (by exists 0%nat).
  assert (H2 : SpecX.ends_with "directory" SampleX.dir_key)
    by (by exists "mail.server.server1.").
  assert (H3 : ~ SpecX.has_char "," SampleX.dir_key)
    by (unfold SpecX.has_char, SampleX.dir_key;
        cbn [list_ascii_of_string]; intros H;
        repeat (apply elem_of_cons in H as [H|H]; [discriminate H|]);
        by apply elem_of_nil in H).
  assert (H4 : ~ SpecX.starts_with MailboxAdapter.dquote SampleX.dir_key)
    by (intros [after [=]]).
  assert (H5 : ~ SpecX.starts_with MailboxAdapter.dquote SampleX.dir_value)
    by (intros [after [=]]).
  assert (H6 : ~ SpecX.ends_with MailboxAdapter.dquote SampleX.dir_value)
    by (intros He; apply (slice_last_suffix MailboxAdapter.dquote) in He;
        discriminate He).
  pose proof (read_directory_line PrefParser.__init__
                [SpecX.pref_line SampleX.dir_key "/old"]
                SampleX.dir_key SampleX.dir_value H1 H2 H3 H4 H5 H6) as Hr.
  cbn [app] in Hr. rewrite Hr. cbn [PrefParser._data].
  apply lookup_insert_eq.
Defined.
